(** * MovebankAPI: a shallow embedding of [MovebankAPI.py]

    The development models the three operations of the Python class
    [MovebankAPI] that carry its logic:

    - [callMovebankAPI], the two-leg request that accepts license terms by
      echoing the MD5 digest of the terms;
    - [transformRawGPS], the conversion of location rows;
    - [transformRawACC], the decoding of raw tri-axial acceleration bursts.

    Python values are modelled as they are at run time: integers as [Z],
    floats as IEEE 754 binary64 numbers ([PrimFloat.float]), [str] and
    [bytes] as [string] and [list byte], dictionaries as [gmap string _],
    exceptions as an error monad.  Library functions the module calls
    ([int], [float], [str.split], [hashlib.md5], [datetime.strptime],
    [timedelta], [strftime], [bytes.decode], [repr] of [bytes]) are written
    out for ASCII input. *)

From Stdlib Require Import ZArith Lia List Bool Ascii String Strings.Byte.
From Stdlib Require Import PrimFloat SpecFloat FloatOps.
From stdpp Require Import base option list strings gmap.

Set Warnings "-inexact-float".

Local Open Scope string_scope.
Local Open Scope list_scope.
Local Open Scope Z_scope.

(** ** Exceptions and the error monad *)

Inductive exn : Type :=
| IndexError
| KeyError (key : string)
| ValueError
| TypeError
| AttributeError
| ZeroDivisionError
| OverflowError
| UnicodeDecodeError
| RequestException.

Inductive result (A : Type) : Type :=
| Ok (a : A)
| Raise (e : exn).
Arguments Ok {A} a.
Arguments Raise {A} e.

#[global] Instance result_ret : MRet result := fun _ a => Ok a.
#[global] Instance result_bind : MBind result := fun _ _ f m =>
  match m with
  | Ok a => f a
  | Raise e => Raise e
  end.
#[global] Instance result_fmap : FMap result := fun _ _ f m =>
  match m with
  | Ok a => Ok (f a)
  | Raise e => Raise e
  end.

Definition is_ok {A} (r : result A) : bool :=
  match r with Ok _ => true | Raise _ => false end.

(** [[f(x) for x in l]]: the elements are evaluated left to right and the
    first exception aborts the comprehension. *)
Fixpoint mapM_result {A B} (f : A → result B) (l : list A) : result (list B) :=
  match l with
  | [] => Ok []
  | x :: l' => y ← f x; ys ← mapM_result f l'; Ok (y :: ys)
  end.

(** ** Python values *)

Inductive pyval : Type :=
| PNone
| PStr (s : string)
| PInt (z : Z)
| PFloat (f : float).

(** A row of [csv.DictReader]: field name to value. *)
Abbreviation record := (gmap string pyval).

(** [d[k]] *)
Definition getitem (d : record) (k : string) : result pyval :=
  match d !! k with
  | Some v => Ok v
  | None => Raise (KeyError k)
  end.

(** [v == s] for a string literal [s]. *)
Definition eq_str (v : pyval) (s : string) : bool :=
  match v with
  | PStr s' => String.eqb s' s
  | _ => false
  end.

(** [len(v)] *)
Definition py_len (v : pyval) : result Z :=
  match v with
  | PStr s => Ok (Z.of_nat (String.length s))
  | _ => Raise TypeError
  end.

(** ** Characters *)

Definition code (c : ascii) : Z := Z.of_N (N_of_ascii c).

(** ASCII characters for which [str.isspace] holds. *)
Definition is_space (c : ascii) : bool :=
  let n := code c in
  ((9 <=? n) && (n <=? 13)) || ((28 <=? n) && (n <=? 32)).

Definition is_digit (c : ascii) : bool :=
  let n := code c in (48 <=? n) && (n <=? 57).

Definition digit_val (c : ascii) : Z := code c - 48.

Definition lower (c : ascii) : ascii :=
  let n := code c in
  if (65 <=? n) && (n <=? 90) then ascii_of_N (Z.to_N (n + 32)) else c.

Fixpoint chars (s : string) : list ascii :=
  match s with
  | EmptyString => []
  | String c s' => c :: chars s'
  end.

Fixpoint unchars (l : list ascii) : string :=
  match l with
  | [] => EmptyString
  | c :: l' => String c (unchars l')
  end.

(** The blanks that [int] and [float] skip around a number: those of C's
    [isspace], without the four separators 28 to 31. *)
Definition is_c_space (c : ascii) : bool :=
  let n := code c in
  ((9 <=? n) && (n <=? 13)) || (n =? 32).

Fixpoint lstrip (blank : ascii → bool) (l : list ascii) : list ascii :=
  match l with
  | c :: l' => if blank c then lstrip blank l' else l
  | [] => []
  end.

(** The characters of [l] without the blanks at both ends. *)
Definition strip (blank : ascii → bool) (l : list ascii) : list ascii :=
  rev (lstrip blank (rev (lstrip blank l))).

(** [s.split()]: the maximal runs of non-blank characters. *)
Fixpoint split_ws_aux (l : list ascii) (cur : list ascii) : list (list ascii) :=
  match l with
  | [] => match cur with [] => [] | _ => [rev cur] end
  | c :: l' =>
      if is_space c
      then match cur with
           | [] => split_ws_aux l' []
           | _ => rev cur :: split_ws_aux l' []
           end
      else split_ws_aux l' (c :: cur)
  end.

Definition split_ws (s : string) : list (list ascii) := split_ws_aux (chars s) [].

(** [v.split()] *)
Definition py_split (v : pyval) : result (list (list ascii)) :=
  match v with
  | PStr s => Ok (split_ws s)
  | _ => Raise AttributeError
  end.

(** ** Integers from text: [int(s)] *)

(** Digits with single underscores between them, as Python's numeric
    literals allow; [prev] tells whether the previous character was a
    digit. *)
Fixpoint digits_value (l : list ascii) (acc : Z) (prev : bool) : option Z :=
  match l with
  | [] => if prev then Some acc else None
  | c :: l' =>
      if is_digit c then digits_value l' (10 * acc + digit_val c) true
      else if Ascii.eqb c "_" then
        (if prev then digits_value l' acc false else None)
      else None
  end.

Definition signed (l : list ascii) : bool * list ascii :=
  match l with
  | c :: l' =>
      if Ascii.eqb c "-" then (true, l')
      else if Ascii.eqb c "+" then (false, l')
      else (false, l)
  | [] => (false, [])
  end.

Definition int_of_chars (l : list ascii) : result Z :=
  let '(neg, body) := signed (strip is_c_space l) in
  match digits_value body 0 false with
  | Some n => Ok (if neg then - n else n)
  | None => Raise ValueError
  end.

(** ** Binary64 numbers *)

(** The float nearest to [m * 2^e] (ties to even), infinite on overflow. *)
Definition round_Z (m e : Z) : float :=
  SF2Prim (binary_normalize prec emax m e false).

(** Conversion of a Python [int] to [float], as in [int * float]. *)
Definition float_of_Z (z : Z) : result float :=
  let f := round_Z z 0 in
  if is_infinity f then Raise OverflowError else Ok f.

(** [int(f)]: truncation toward zero. *)
Definition trunc_SF (x : spec_float) : Z :=
  match x with
  | S754_finite s m e =>
      let a := if 0 <=? e then Z.pos m * 2 ^ e else Z.pos m / 2 ^ (- e) in
      if s then - a else a
  | _ => 0
  end.

Definition int_of_float (f : float) : result Z :=
  match Prim2SF f with
  | S754_nan => Raise ValueError
  | S754_infinity _ => Raise OverflowError
  | x => Ok (trunc_SF x)
  end.

(** [round(f)]: the nearest integer, ties to even. *)
Definition round_half_even_SF (x : spec_float) : Z :=
  match x with
  | S754_finite s m e =>
      let a :=
        if 0 <=? e then Z.pos m * 2 ^ e
        else
          let k := - e in
          let q := Z.pos m / 2 ^ k in
          let r := Z.pos m mod 2 ^ k in
          let half := 2 ^ (k - 1) in
          if r <? half then q
          else if half <? r then q + 1
          else if Z.even q then q else q + 1 in
      if s then - a else a
  | _ => 0
  end.

(** ** Floats from text: [float(s)] *)

(** The float nearest to [m * 10^e10], for [0 <= m < 10^ndigits].  A
    negative power of ten is divided out with 64 extra bits and a sticky
    bit, so one final rounding gives the correctly rounded quotient. *)
Definition decimal_to_float (m ndigits e10 : Z) : float :=
  if m =? 0 then 0%float
  else if 400 <? e10 then infinity
  else if 0 <=? e10 then round_Z (m * 10 ^ e10) 0
  else
    let k := - e10 in
    if ndigits + 400 <? k then 0%float
    else
      let den := 10 ^ k in
      let s := Z.max 0 (64 + Z.log2 den - Z.log2 m) in
      let num := m * 2 ^ s in
      let q := num / den in
      let sticky := if num mod den =? 0 then 0 else 1 in
      round_Z (2 * q + sticky) (- s - 1).

(** Underscores may only stand between two digits; they are removed. *)
Fixpoint drop_underscores (l : list ascii) (prev : ascii) : option (list ascii) :=
  match l with
  | [] => if Ascii.eqb prev "_" then None else Some []
  | c :: l' =>
      if Ascii.eqb c "_" then
        (if is_digit prev then drop_underscores l' c else None)
      else if Ascii.eqb prev "_" && negb (is_digit c) then None
      else option_map (cons c) (drop_underscores l' c)
  end.

(** The longest prefix of digits: its value, its length, and the rest. *)
Fixpoint take_digits (l : list ascii) (acc n : Z) : Z * Z * list ascii :=
  match l with
  | c :: l' =>
      if is_digit c then take_digits l' (10 * acc + digit_val c) (n + 1)
      else (acc, n, l)
  | [] => (acc, n, [])
  end.

(** The exponent part: empty, or [e], an optional sign and digits. *)
Definition exponent (l : list ascii) : option Z :=
  match l with
  | [] => Some 0
  | c :: l' =>
      if Ascii.eqb (lower c) "e" then
        let '(neg, ds) := signed l' in
        match take_digits ds 0 0 with
        | (v, n, []) => if 0 <? n then Some (if neg then - v else v) else None
        | _ => None
        end
      else None
  end.

Definition decimal (l : list ascii) : option float :=
  let '(ip, ni, rest) := take_digits l 0 0 in
  let '(m, nf, rest') :=
    match rest with
    | c :: r =>
        if Ascii.eqb c "." then
          let '(m, n, r') := take_digits r ip ni in (m, n - ni, r')
        else (ip, 0, rest)
    | [] => (ip, 0, [])
    end in
  if 0 <? ni + nf then
    match exponent rest' with
    | Some ex => Some (decimal_to_float m (ni + nf) (ex - nf))
    | None => None
    end
  else None.

Definition float_of_chars (l : list ascii) : result float :=
  let l := strip is_c_space l in
  match (if existsb (Ascii.eqb "_") l then drop_underscores l "000" else Some l) with
  | None => Raise ValueError
  | Some l =>
      let '(neg, body) := signed l in
      let word := unchars (map lower body) in
      let mag :=
        if String.eqb word "inf" || String.eqb word "infinity" then Some infinity
        else if String.eqb word "nan" then Some nan
        else decimal body in
      match mag with
      | Some f => Ok (if neg then (- f)%float else f)
      | None => Raise ValueError
      end
  end.

(** [int(v)] and [float(v)] on a Python value. *)
Definition py_int (v : pyval) : result Z :=
  match v with
  | PStr s => int_of_chars (chars s)
  | PInt z => Ok z
  | PFloat f => int_of_float f
  | PNone => Raise TypeError
  end.

Definition py_float (v : pyval) : result float :=
  match v with
  | PStr s => float_of_chars (chars s)
  | PInt z => float_of_Z z
  | PFloat f => Ok f
  | PNone => Raise TypeError
  end.

(** ** Dates and times: [datetime] and [timedelta] *)

Record datetime : Type := mk_datetime {
  year : Z; month : Z; day : Z;
  hour : Z; minute : Z; second : Z; microsecond : Z
}.

Definition is_leap (y : Z) : bool :=
  (y mod 4 =? 0) && (negb (y mod 100 =? 0) || (y mod 400 =? 0)).

(** Days in month [m] of a common or a leap year. *)
Definition month_length (leap : bool) (m : Z) : Z :=
  if m =? 2 then (if leap then 29 else 28)
  else if (m =? 4) || (m =? 6) || (m =? 9) || (m =? 11) then 30
  else 31.

Definition days_in_month (y m : Z) : Z := month_length (is_leap y) m.

(** Days of the year before the first of month [m], in a common year. *)
Definition days_before_month_common (m : Z) : Z :=
  nth (Z.to_nat m) [0; 0; 31; 59; 90; 120; 151; 181; 212; 243; 273; 304; 334] 0.

Definition days_before_month (y m : Z) : Z :=
  days_before_month_common m + (if (2 <? m) && is_leap y then 1 else 0).

Definition days_before_year (y : Z) : Z :=
  let y := y - 1 in y * 365 + y / 4 - y / 100 + y / 400.

(** [date.toordinal()]: 1 for the first of January of year 1. *)
Definition ymd2ord (y m d : Z) : Z :=
  days_before_year y + days_before_month y m + d.

(** Month and day of the [n]-th day of a year, counted from 0: the month
    is estimated from [n] and corrected when the estimate is one too
    large. *)
Definition month_day (leapyear : bool) (n : Z) : Z * Z :=
  let m := Z.shiftr (n + 50) 5 in
  let preceding :=
    days_before_month_common m + (if (2 <? m) && leapyear then 1 else 0) in
  if n <? preceding
  then (m - 1, n - (preceding - month_length leapyear (m - 1)) + 1)
  else (m, n - preceding + 1).

(** [date.fromordinal(n)] *)
Definition ord2ymd (n : Z) : Z * Z * Z :=
  let n := n - 1 in
  let n400 := n / 146097 in let n := n mod 146097 in
  let n100 := n / 36524 in let n := n mod 36524 in
  let n4 := n / 1461 in let n := n mod 1461 in
  let n1 := n / 365 in let n := n mod 365 in
  let y := n400 * 400 + 1 + n100 * 100 + n4 * 4 + n1 in
  if (n1 =? 4) || (n100 =? 4) then (y - 1, 12, 31)
  else
    let leapyear := (n1 =? 3) && (negb (n4 =? 24) || (n100 =? 3)) in
    let '(m, d) := month_day leapyear n in
    (y, m, d).

Definition MAXORDINAL : Z := 3652059.
Definition US_PER_DAY : Z := 86400 * 1000000.

(** The [datetime] constructor checks its fields. *)
Definition make_datetime (y m d hh mm ss us : Z) : result datetime :=
  if (1 <=? y) && (y <=? 9999) && (1 <=? m) && (m <=? 12)
     && (1 <=? d) && (d <=? days_in_month y m)
     && (0 <=? hh) && (hh <=? 23) && (0 <=? mm) && (mm <=? 59)
     && (0 <=? ss) && (ss <=? 59) && (0 <=? us) && (us <=? 999999)
  then Ok (mk_datetime y m d hh mm ss us)
  else Raise ValueError.

(** A [timedelta] is kept as its total number of microseconds; Python
    refuses one of more than 999999999 days. *)
Definition check_timedelta (us : Z) : result Z :=
  let days := us / US_PER_DAY in
  if (days <? -999999999) || (999999999 <? days) then Raise OverflowError
  else Ok us.

(** [timedelta(seconds=x)] for a float [x]: the whole seconds are exact, the
    fraction is multiplied by [1e6] as a float and rounded half to even. *)
Definition timedelta_seconds (x : float) : result Z :=
  match Prim2SF x with
  | S754_nan => Raise ValueError
  | S754_infinity _ => Raise OverflowError
  | sx =>
      let whole := trunc_SF sx in
      let frac := (x - round_Z whole 0)%float in
      let usdouble := (frac * 1e6)%float in
      check_timedelta (whole * 1000000 + round_half_even_SF (Prim2SF usdouble))
  end.

(** [dt + delta] *)
Definition datetime_add (dt : datetime) (delta : Z) : result datetime :=
  let self_us :=
    (ymd2ord (year dt) (month dt) (day dt)) * US_PER_DAY
    + ((hour dt * 60 + minute dt) * 60 + second dt) * 1000000
    + microsecond dt in
  total ← check_timedelta (self_us + delta);
  let days := total / US_PER_DAY in
  let rem := total mod US_PER_DAY in
  if (0 <? days) && (days <=? MAXORDINAL) then
    let '(y, m, d) := ord2ymd days in
    let secs := rem / 1000000 in
    Ok (mk_datetime y m d (secs / 3600) (secs mod 3600 / 60) (secs mod 60)
          (rem mod 1000000))
  else Raise OverflowError.

(** *** [strptime] with the format [%Y-%m-%d %H:%M:%S.%f]

    Python compiles the format to a regular expression; each directive is
    a list of alternatives tried in order, with backtracking into the
    alternatives when the rest of the pattern fails. *)

Definition matcher := list ascii → option (Z * list ascii).

Definition in_range (lo hi : ascii) (c : ascii) : bool :=
  (code lo <=? code c) && (code c <=? code hi).

(** Two characters [c1 c2] with [p1 c1] and [p2 c2], read as a number. *)
Definition two (p1 p2 : ascii → bool) : matcher := fun l =>
  match l with
  | c1 :: c2 :: r =>
      if p1 c1 && p2 c2
      then Some ((if is_digit c1 then 10 * digit_val c1 else 0) + digit_val c2, r)
      else None
  | _ => None
  end.

Definition one (p : ascii → bool) : matcher := fun l =>
  match l with
  | c :: r => if p c then Some (digit_val c, r) else None
  | _ => None
  end.

Fixpoint alternatives {A} (alts : list matcher) (l : list ascii)
    (k : Z → list ascii → option A) : option A :=
  match alts with
  | [] => None
  | a :: alts' =>
      match a l with
      | Some (v, r) =>
          match k v r with
          | Some x => Some x
          | None => alternatives alts' l k
          end
      | None => alternatives alts' l k
      end
  end.

Definition literal {A} (c : ascii) (l : list ascii)
    (k : list ascii → option A) : option A :=
  match l with
  | c' :: r => if Ascii.eqb c c' then k r else None
  | [] => None
  end.

(** [\s+]; what follows starts with a digit, so the greedy match is the
    only one that can succeed. *)
Definition spaces {A} (l : list ascii) (k : list ascii → option A) : option A :=
  match l with
  | c :: r => if is_space c then k (lstrip is_space r) else None
  | [] => None
  end.

Definition re_Y : list matcher :=
  [fun l => match l with
            | a :: b :: c :: d :: r =>
                if is_digit a && is_digit b && is_digit c && is_digit d
                then Some (((digit_val a * 10 + digit_val b) * 10 + digit_val c) * 10
                           + digit_val d, r)
                else None
            | _ => None
            end].
Definition re_m : list matcher :=
  [two (Ascii.eqb "1") (in_range "0" "2"); two (Ascii.eqb "0") (in_range "1" "9");
   one (in_range "1" "9")].
Definition re_d : list matcher :=
  [two (Ascii.eqb "3") (in_range "0" "1"); two (in_range "1" "2") is_digit;
   two (Ascii.eqb "0") (in_range "1" "9"); one (in_range "1" "9");
   two (Ascii.eqb " ") (in_range "1" "9")].
Definition re_H : list matcher :=
  [two (Ascii.eqb "2") (in_range "0" "3"); two (in_range "0" "1") is_digit;
   one is_digit].
Definition re_M : list matcher := [two (in_range "0" "5") is_digit; one is_digit].
Definition re_S : list matcher :=
  [two (Ascii.eqb "6") (in_range "0" "1"); two (in_range "0" "5") is_digit;
   one is_digit].

(** [[0-9]{1,6}], greedy, padded with zeros on the right to six digits. *)
Fixpoint fraction (n : nat) (l : list ascii) (acc : Z) : Z * list ascii :=
  match n with
  | O => (acc, l)
  | S n' =>
      match l with
      | c :: r =>
          if is_digit c then fraction n' r (10 * acc + digit_val c)
          else (acc * 10 ^ Z.of_nat n, l)
      | [] => (acc * 10 ^ Z.of_nat n, [])
      end
  end.

Definition strptime_chars (l : list ascii) : option (Z * Z * Z * Z * Z * Z * Z) :=
  alternatives re_Y l (fun y l => literal "-" l (fun l =>
  alternatives re_m l (fun m l => literal "-" l (fun l =>
  alternatives re_d l (fun d l => spaces l (fun l =>
  alternatives re_H l (fun hh l => literal ":" l (fun l =>
  alternatives re_M l (fun mm l => literal ":" l (fun l =>
  alternatives re_S l (fun ss l => literal "." l (fun l =>
  match l with
  | c :: _ =>
      if is_digit c then Some (y, m, d, hh, mm, ss, fraction 6 l 0) else None
  | [] => None
  end)))))))))))) ≫= fun '(y, m, d, hh, mm, ss, (us, rest)) =>
  match rest with
  | [] => Some (y, m, d, hh, mm, ss, us)
  | _ => None
  end.

Definition ts_format : string := "%Y-%m-%d %H:%M:%S.%f".

(** [datetime.strptime(v, ts_format)] *)
Definition strptime (v : pyval) : result datetime :=
  match v with
  | PStr s =>
      match strptime_chars (chars s) with
      | Some (y, m, d, hh, mm, ss, us) => make_datetime y m d hh mm ss us
      | None => Raise ValueError
      end
  | _ => Raise TypeError
  end.

(** *** [strftime] with the same format.  The month, the day and the
    fields of the time are zero-filled.  The width of [%Y] is decided by
    the C library: with the GNU C library, which the model follows, the
    year is printed as a number without leading zeros, so that the year
    999 takes three characters. *)

Definition digit_char (d : Z) : ascii := ascii_of_N (Z.to_N (48 + d mod 10)).

Fixpoint zero_filled (width : nat) (n : Z) : list ascii :=
  match width with
  | O => []
  | S w => zero_filled w (n / 10) ++ [digit_char n]
  end.

(** The decimal digits of a year; a [datetime] has a year from 1 to
    9999. *)
Definition year_digits (y : Z) : list ascii :=
  if y <? 10 then zero_filled 1 y
  else if y <? 100 then zero_filled 2 y
  else if y <? 1000 then zero_filled 3 y
  else zero_filled 4 y.

Definition strftime (dt : datetime) : string :=
  unchars (year_digits (year dt) ++ ["-"%char] ++ zero_filled 2 (month dt)
           ++ ["-"%char] ++ zero_filled 2 (day dt) ++ [" "%char]
           ++ zero_filled 2 (hour dt) ++ [":"%char] ++ zero_filled 2 (minute dt)
           ++ [":"%char] ++ zero_filled 2 (second dt) ++ ["."%char]
           ++ zero_filled 6 (microsecond dt)).

(** ** [hashlib.md5]: the MD5 message digest (RFC 1321) *)

Module MD5.

Definition mask32 : Z := 0xFFFFFFFF.
Definition add32 (a b : Z) : Z := Z.land (a + b) mask32.
Definition not32 (a : Z) : Z := Z.lxor a mask32.
Definition rotl32 (x c : Z) : Z :=
  Z.land (Z.lor (Z.shiftl x c) (Z.shiftr x (32 - c))) mask32.

Definition shifts : list Z :=
  [7; 12; 17; 22; 7; 12; 17; 22; 7; 12; 17; 22; 7; 12; 17; 22;
   5; 9; 14; 20; 5; 9; 14; 20; 5; 9; 14; 20; 5; 9; 14; 20;
   4; 11; 16; 23; 4; 11; 16; 23; 4; 11; 16; 23; 4; 11; 16; 23;
   6; 10; 15; 21; 6; 10; 15; 21; 6; 10; 15; 21; 6; 10; 15; 21].

(** [floor(2^32 * abs(sin(i + 1)))] *)
Definition sines : list Z :=
  [0xd76aa478; 0xe8c7b756; 0x242070db; 0xc1bdceee;
   0xf57c0faf; 0x4787c62a; 0xa8304613; 0xfd469501;
   0x698098d8; 0x8b44f7af; 0xffff5bb1; 0x895cd7be;
   0x6b901122; 0xfd987193; 0xa679438e; 0x49b40821;
   0xf61e2562; 0xc040b340; 0x265e5a51; 0xe9b6c7aa;
   0xd62f105d; 0x02441453; 0xd8a1e681; 0xe7d3fbc8;
   0x21e1cde6; 0xc33707d6; 0xf4d50d87; 0x455a14ed;
   0xa9e3e905; 0xfcefa3f8; 0x676f02d9; 0x8d2a4c8a;
   0xfffa3942; 0x8771f681; 0x6d9d6122; 0xfde5380c;
   0xa4beea44; 0x4bdecfa9; 0xf6bb4b60; 0xbebfbc70;
   0x289b7ec6; 0xeaa127fa; 0xd4ef3085; 0x04881d05;
   0xd9d4d039; 0xe6db99e5; 0x1fa27cf8; 0xc4ac5665;
   0xf4292244; 0x432aff97; 0xab9423a7; 0xfc93a039;
   0x655b59c3; 0x8f0ccc92; 0xffeff47d; 0x85845dd1;
   0x6fa87e4f; 0xfe2ce6e0; 0xa3014314; 0x4e0811a1;
   0xf7537e82; 0xbd3af235; 0x2ad7d2bb; 0xeb86d391].

Definition state : Type := Z * Z * Z * Z.

Definition init : state := (0x67452301, 0xefcdab89, 0x98badcfe, 0x10325476).

(** One of the 64 operations on a block of sixteen words. *)
Definition step (block : list Z) (st : state) (i : nat) : state :=
  let '(a, b, c, d) := st in
  let iz := Z.of_nat i in
  let '(f, g) :=
    if iz <? 16 then (Z.lor (Z.land b c) (Z.land (not32 b) d), iz)
    else if iz <? 32 then
      (Z.lor (Z.land d b) (Z.land (not32 d) c), (5 * iz + 1) mod 16)
    else if iz <? 48 then (Z.lxor b (Z.lxor c d), (3 * iz + 5) mod 16)
    else (Z.lxor c (Z.lor b (not32 d)), (7 * iz) mod 16) in
  let f := add32 (add32 (add32 f a) (nth i sines 0)) (nth (Z.to_nat g) block 0) in
  (d, add32 b (rotl32 f (nth i shifts 0)), b, c).

Definition compress (st : state) (block : list Z) : state :=
  let '(a0, b0, c0, d0) := st in
  let '(a, b, c, d) := fold_left (step block) (seq 0 64) st in
  (add32 a0 a, add32 b0 b, add32 c0 c, add32 d0 d).

(** Little-endian bytes of a number, and back. *)
Fixpoint le_bytes (n : nat) (x : Z) : list Z :=
  match n with
  | O => []
  | S n' => Z.land x 255 :: le_bytes n' (Z.shiftr x 8)
  end.

Fixpoint le_word (bs : list Z) : Z :=
  match bs with
  | [] => 0
  | b :: bs' => b + 256 * le_word bs'
  end.

(** The message, a one bit, zeros up to 56 modulo 64, and the bit length
    on eight bytes. *)
Definition pad (msg : list Z) : list Z :=
  let len := Z.of_nat (length msg) in
  let zeros := Z.to_nat ((55 - len) mod 64) in
  msg ++ [128] ++ repeat 0 zeros ++ le_bytes 8 (8 * len).

(** Cuts a list in groups of [n] elements ([fuel] bounds the number of
    groups); a shorter last group is kept. *)
Fixpoint groups {A} (fuel n : nat) (l : list A) : list (list A) :=
  match fuel, l with
  | O, _ | _, [] => []
  | S fuel', _ => firstn n l :: groups fuel' n (skipn n l)
  end.

Definition blocks (bytes : list Z) : list (list Z) :=
  map (fun blk => map le_word (groups 16 4 blk))
      (groups (length bytes) 64 bytes).

Definition digest (msg : list byte) : list Z :=
  let bytes := map (fun b => Z.of_N (Byte.to_N b)) msg in
  let '(a, b, c, d) := fold_left compress (blocks (pad bytes)) init in
  le_bytes 4 a ++ le_bytes 4 b ++ le_bytes 4 c ++ le_bytes 4 d.

Definition hex_char (n : Z) : ascii :=
  nth (Z.to_nat n) (chars "0123456789abcdef") "0"%char.

(** [hashlib.md5(msg).hexdigest()] *)
Definition hexdigest (msg : list byte) : string :=
  unchars (flat_map (fun b => [hex_char (b / 16); hex_char (b mod 16)]) (digest msg)).

End MD5.

(** ** [bytes] and text *)

Definition bytes_of (s : string) : list byte := list_byte_of_string s.

Definition ascii_bytes (b : list byte) : list ascii := map ascii_of_byte b.

(** [needle in haystack] *)
Fixpoint starts_with (p l : list ascii) : bool :=
  match p, l with
  | [], _ => true
  | c :: p', c' :: l' => Ascii.eqb c c' && starts_with p' l'
  | _ :: _, [] => false
  end.

Fixpoint contains (needle hay : list ascii) : bool :=
  starts_with needle hay
  || match hay with
     | [] => false
     | _ :: hay' => contains needle hay'
     end.

Definition str_contains (needle hay : string) : bool :=
  contains (chars needle) (chars hay).

(** [str(b)] for a [bytes] object [b] is its [repr]: [b'...'], with the
    quote, the backslash and the bytes outside printable ASCII escaped. *)
Definition backslash : ascii := "\"%char.
Definition quote1 : ascii := "'"%char.
Definition quote2 : ascii := "034"%char.

Definition escape (quote c : ascii) : list ascii :=
  let n := code c in
  if Ascii.eqb c quote || Ascii.eqb c backslash then [backslash; c]
  else if n =? 9 then [backslash; "t"%char]
  else if n =? 10 then [backslash; "n"%char]
  else if n =? 13 then [backslash; "r"%char]
  else if (n <? 32) || (127 <=? n)
  then [backslash; "x"%char; MD5.hex_char (n / 16); MD5.hex_char (n mod 16)]
  else [c].

Definition repr_quote (cs : list ascii) : ascii :=
  if existsb (Ascii.eqb quote1) cs && negb (existsb (Ascii.eqb quote2) cs)
  then quote2 else quote1.

Definition repr_bytes (b : list byte) : string :=
  let cs := ascii_bytes b in
  let q := repr_quote cs in
  unchars (["b"%char; q] ++ flat_map (escape q) cs ++ [q]).

(** [b.decode('utf-8')]: a Python [str] is kept as its UTF-8 encoding, so
    decoding checks that the bytes are well-formed UTF-8 (no overlong
    form, no surrogate, nothing above U+10FFFF) and keeps them. *)
Definition continuation (lo hi : Z) (c : ascii) : bool :=
  (lo <=? code c) && (code c <=? hi).

Fixpoint utf8_valid (l : list ascii) : bool :=
  match l with
  | [] => true
  | b0 :: r =>
      let n := code b0 in
      if n <=? 0x7F then utf8_valid r
      else if (0xC2 <=? n) && (n <=? 0xDF) then
        match r with
        | b1 :: r1 => continuation 0x80 0xBF b1 && utf8_valid r1
        | _ => false
        end
      else if (0xE0 <=? n) && (n <=? 0xEF) then
        match r with
        | b1 :: b2 :: r2 =>
            continuation (if n =? 0xE0 then 0xA0 else 0x80)
                         (if n =? 0xED then 0x9F else 0xBF) b1
            && continuation 0x80 0xBF b2 && utf8_valid r2
        | _ => false
        end
      else if (0xF0 <=? n) && (n <=? 0xF4) then
        match r with
        | b1 :: b2 :: b3 :: r3 =>
            continuation (if n =? 0xF0 then 0x90 else 0x80)
                         (if n =? 0xF4 then 0x8F else 0xBF) b1
            && continuation 0x80 0xBF b2 && continuation 0x80 0xBF b3
            && utf8_valid r3
        | _ => false
        end
      else false
  end.

Definition decode_utf8 (b : list byte) : result string :=
  if utf8_valid (ascii_bytes b) then Ok (string_of_list_byte b)
  else Raise UnicodeDecodeError.

(** ** The world of [callMovebankAPI]: network, environment, console *)

Abbreviation cookie_jar := (list (string * string)).
Abbreviation params := (list (string * pyval)).

(** What [requests.get] is given. *)
Record Request : Type := mk_request {
  req_url : string;
  req_params : params;
  req_cookies : option cookie_jar;
  req_auth : string * string
}.

(** What [requests.get] returns. *)
Record Response : Type := mk_response {
  status_code : Z;
  content : list byte;
  cookies : cookie_jar;
  url : string
}.

(** The remote side answers a request knowing every request sent so far
    (the last one is the current one); it may also fail to answer. *)
Record World : Type := mk_world {
  environ : gmap string string;
  transport : list Request → result Response;
  sent : list Request;
  stdout : list string
}.

(** Computations that read and change the world and may raise. *)
Definition IO (A : Type) : Type := World → result A * World.

#[global] Instance IO_ret : MRet IO := fun _ a w => (Ok a, w).
#[global] Instance IO_bind : MBind IO := fun _ _ f m w =>
  match m w with
  | (Ok a, w') => f a w'
  | (Raise e, w') => (Raise e, w')
  end.

Definition lift {A} (r : result A) : IO A := fun w => (r, w).

Definition print (line : string) : IO unit := fun w =>
  (Ok (), mk_world (environ w) (transport w) (sent w) (stdout w ++ [line])).

(** [os.environ[key]] *)
Definition environ_get (key : string) : IO string := fun w =>
  (match environ w !! key with
   | Some v => Ok v
   | None => Raise (KeyError key)
   end, w).

Definition requests_get (u : string) (ps : params) (cs : option cookie_jar)
    (auth : string * string) : IO Response := fun w =>
  let history := sent w ++ [mk_request u ps cs auth] in
  (transport w history, mk_world (environ w) (transport w) history (stdout w)).

(** ** The class [MovebankAPI] *)

Record MovebankAPI : Type := mk_api {
  username : string;
  password : string;
  study_id : pyval
}.

Definition direct_read : string :=
  "https://www.movebank.org/movebank/service/direct-read".

Definition license_marker : string := "License Terms:".

Definition callMovebankAPI (self : MovebankAPI) (ps : params) : IO string :=
  response ← requests_get direct_read ps None (username self, password self);
  _ ← print ("Request " +:+ url response);
  if status_code response =? 200 then
    if str_contains license_marker (repr_bytes (content response)) then
      _ ← print "Has license terms";
      let hash := MD5.hexdigest (content response) in
      let ps := ps ++ [("license-md5", PStr hash)] in
      mbus ← environ_get "mbus";
      mbpw ← environ_get "mbpw";
      response ← requests_get direct_read ps (Some (cookies response)) (mbus, mbpw);
      if status_code response =? 403 then
        _ ← print "Incorrect hash";
        mret ""
      else lift (decode_utf8 (content response))
    else lift (decode_utf8 (content response))
  else
    _ ← print (repr_bytes (content response));
    mret (repr_bytes (content response)).

(** ** [transformRawGPS] *)

Abbreviation gps_fix := (pyval * pyval * pyval * pyval)%type.

(** [if len(e[k]) > 0: e[k] = float(e[k])] *)
Definition convert_field (k : string) (e : record) : result record :=
  v ← getitem e k;
  n ← py_len v;
  if 0 <? n then
    v ← getitem e k;
    f ← py_float v;
    Ok (<[k := PFloat f]> e)
  else Ok e.

Definition parse_warning : string := "Could not parse long/lat.".

(** The inner function [transform]: it updates the row [e] in place, so
    the row after the call is returned next to the result, with the lines
    printed.  The bare [except] catches every exception of the two
    conversions; an assignment already done stays done. *)
Definition transform (e : record) : result gps_fix * record * list string :=
  let '(e', out) :=
    match convert_field "location_lat" e with
    | Raise _ => (e, [parse_warning])
    | Ok e1 =>
        match convert_field "location_long" e1 with
        | Raise _ => (e1, [parse_warning])
        | Ok e2 => (e2, [])
        end
    end in
  (ts ← getitem e' "timestamp";
   dep ← getitem e' "deployment_id";
   lat ← getitem e' "location_lat";
   long ← getitem e' "location_long";
   Ok (ts, dep, lat, long),
   e', out).

(** [[transform(e) for e in gpsevents]]; the rows are distinct objects (as
    the rows of a [csv.DictReader] are), returned as the call leaves
    them. *)
Fixpoint transformRawGPS (gpsevents : list record)
    : result (list gps_fix) * list record * list string :=
  match gpsevents with
  | [] => (Ok [], [], [])
  | e :: rest =>
      let '(r, e', out) := transform e in
      match r with
      | Raise x => (Raise x, e' :: rest, out)
      | Ok fix_ =>
          let '(rs, rest', out') := transformRawGPS rest in
          (cons fix_ <$> rs, e' :: rest', out ++ out')
      end
  end.

(** ** [transformRawACC] *)

(** A decoded sample: [(timestamp, deployment, x, y, z)]. *)
Abbreviation sample := (string * pyval * float * float * float)%type.

(** The calibration slope of an e-obs tag, by generation. *)
Definition slope (tag_local_identifier : Z) (sensitivity : pyval) : float :=
  let slope := 0.001%float in
  if tag_local_identifier <=? 2241 then
    if eq_str sensitivity "low" then 0.0027%float else slope
  else if (2242 <=? tag_local_identifier) && (tag_local_identifier <=? 4117)
  then 0.0022%float
  else (1 / 512)%float.

(** [1] for [g] (the integer becomes [1.0] in the product), else [9.81]. *)
Definition unitfactor (unit : pyval) : float :=
  if eq_str unit "g" then 1%float else 9.81%float.

(** [zip(it, it, it)]: consecutive triples, an incomplete last one
    dropped. *)
Fixpoint triples (raw : list Z) : list (Z * Z * Z) :=
  match raw with
  | a :: b :: c :: rest => (a, b, c) :: triples rest
  | _ => []
  end.

(** [range(0, n)] *)
Definition range (n : nat) : list Z := map Z.of_nat (seq 0 n).

(** [(b - 2048) * slope * unitfactor] *)
Definition axis (slope unitfactor : float) (b : Z) : result float :=
  f ← float_of_Z (b - 2048);
  Ok (f * slope * unitfactor)%float.

(** [parsedts + timedelta(seconds=seconds * x)] *)
Definition interpolate (parsedts : datetime) (seconds : float) (x : Z)
    : result datetime :=
  xf ← float_of_Z x;
  delta ← timedelta_seconds (seconds * xf)%float;
  datetime_add parsedts delta.

Definition transformed (slope unitfactor : float) (deploym : pyval)
    (p : datetime * (Z * Z * Z)) : result sample :=
  let '(a, (b0, b1, b2)) := p in
  x ← axis slope unitfactor b0;
  y ← axis slope unitfactor b1;
  z ← axis slope unitfactor b2;
  Ok (strftime a, deploym, x, y, z).

(** [seconds = 1 / float(event['acceleration_sampling_frequency_per_axis'])] *)
Definition seconds_of (event : record) : result float :=
  freq ← getitem event "acceleration_sampling_frequency_per_axis";
  f ← py_float freq;
  if (f =? 0)%float then Raise ZeroDivisionError else Ok (1 / f)%float.

(** [parsedts = datetime.strptime(event['timestamp'], ts_format)] *)
Definition parsedts_of (event : record) : result datetime :=
  stamp ← getitem event "timestamp";
  strptime stamp.

(** [raw = list(map(int, event['accelerations_raw'].split()))] *)
Definition raw_of (event : record) : result (list Z) :=
  acc ← getitem event "accelerations_raw";
  tokens ← py_split acc;
  mapM_result int_of_chars tokens.

(** The body of the loop over the events.  [int(len(raw) / 3)] is the
    integer quotient for every list that fits in memory (below [2^53]
    elements the float quotient truncates to it). *)
Definition decode_event (slope unitfactor : float) (event : record)
    : result (list sample) :=
  deploym ← getitem event "deployment_id";
  seconds ← seconds_of event;
  parsedts ← parsedts_of event;
  raw ← raw_of event;
  ts ← mapM_result (interpolate parsedts seconds) (range (length raw / 3));
  mapM_result (transformed slope unitfactor deploym) (zip ts (triples raw)).

Definition transformRawACC (accevents : list record) (unit sensitivity : pyval)
    : result (list (list sample)) :=
  let uf := unitfactor unit in
  match accevents with
  | [] => Raise IndexError
  | first :: _ =>
      tag ← getitem first "tag_local_identifier";
      tag_local_identifier ← py_int tag;
      mapM_result (decode_event (slope tag_local_identifier sensitivity) uf) accevents
  end.

(** ** [csv.reader] over [io.StringIO]

    The listing methods parse the text of an answer with
    [csv.DictReader(io.StringIO(text), delimiter=',')].  The reader is the
    state machine of the [csv] module with the default dialect: the double
    quote as quote character, doubled inside a quoted field, no escape
    character, not strict. *)

(** [_csv.Error] is raised beside the built-in exceptions. *)
Inductive failure : Type :=
| Builtin (e : exn)
| CsvError.

Inductive outcome (A : Type) : Type :=
| Returned (a : A)
| Failed (f : failure).
Arguments Returned {A} a.
Arguments Failed {A} f.

#[global] Instance outcome_ret : MRet outcome := fun _ a => Returned a.
#[global] Instance outcome_bind : MBind outcome := fun _ _ f m =>
  match m with
  | Returned a => f a
  | Failed e => Failed e
  end.

Definition of_result {A} (r : result A) : outcome A :=
  match r with
  | Ok a => Returned a
  | Raise e => Failed (Builtin e)
  end.

(** The lines an [io.StringIO] yields: the text is cut after every line
    feed, and only there. *)
Definition is_lf (c : ascii) : bool := code c =? 10.

Fixpoint lines_of (text : list ascii) : list (list ascii) :=
  match text with
  | [] => []
  | c :: text' =>
      if is_lf c then [c] :: lines_of text'
      else match lines_of text' with
           | [] => [[c]]
           | line :: rest => (c :: line) :: rest
           end
  end.

Inductive parse_state : Type :=
| START_RECORD
| START_FIELD
| IN_FIELD
| IN_QUOTED_FIELD
| QUOTE_IN_QUOTED_FIELD
| EAT_CRNL.

#[global] Instance parse_state_eq_dec : EqDecision parse_state.
Proof. solve_decision. Defined.

(** The record being read: the fields saved so far and the characters
    of the field in progress. *)
Record parser : Type := mk_parser {
  state : parse_state;
  fields : list string;
  field : list ascii
}.

Definition start_parser : parser := mk_parser START_RECORD [] [].

Definition field_limit : Z := 131072.

Definition is_newline (c : ascii) : bool := (code c =? 10) || (code c =? 13).
Definition is_comma (c : ascii) : bool := code c =? 44.
Definition is_quote (c : ascii) : bool := code c =? 34.

(** [parse_add_char] *)
Definition add_char (p : parser) (c : ascii) (next : parse_state) : outcome parser :=
  if field_limit <=? Z.of_nat (length (field p)) then Failed CsvError
  else Returned (mk_parser next (fields p) (field p ++ [c])).

(** [parse_save_field] *)
Definition save_field (p : parser) (next : parse_state) : parser :=
  mk_parser next (fields p ++ [unchars (field p)]) [].

(** [parse_process_char]; [None] is the end of a line. *)
Definition process_char (p : parser) (c : option ascii) : outcome parser :=
  let start_field (p : parser) :=
    match c with
    | None => Returned (save_field p START_RECORD)
    | Some ch =>
        if is_newline ch then Returned (save_field p EAT_CRNL)
        else if is_quote ch
        then Returned (mk_parser IN_QUOTED_FIELD (fields p) (field p))
        else if is_comma ch then Returned (save_field p START_FIELD)
        else add_char p ch IN_FIELD
    end in
  match state p with
  | START_RECORD =>
      match c with
      | None => Returned p
      | Some ch =>
          if is_newline ch then Returned (mk_parser EAT_CRNL (fields p) (field p))
          else start_field p
      end
  | START_FIELD => start_field p
  | IN_FIELD =>
      match c with
      | None => Returned (save_field p START_RECORD)
      | Some ch =>
          if is_newline ch then Returned (save_field p EAT_CRNL)
          else if is_comma ch then Returned (save_field p START_FIELD)
          else add_char p ch IN_FIELD
      end
  | IN_QUOTED_FIELD =>
      match c with
      | None => Returned p
      | Some ch =>
          if is_quote ch
          then Returned (mk_parser QUOTE_IN_QUOTED_FIELD (fields p) (field p))
          else add_char p ch IN_QUOTED_FIELD
      end
  | QUOTE_IN_QUOTED_FIELD =>
      match c with
      | None => Returned (save_field p START_RECORD)
      | Some ch =>
          if is_quote ch then add_char p ch IN_QUOTED_FIELD
          else if is_comma ch then Returned (save_field p START_FIELD)
          else if is_newline ch then Returned (save_field p EAT_CRNL)
          else add_char p ch IN_FIELD
      end
  | EAT_CRNL =>
      match c with
      | None => Returned (mk_parser START_RECORD (fields p) (field p))
      | Some ch => if is_newline ch then Returned p else Failed CsvError
      end
  end.

(** The characters of one line, then the end of the line. *)
Fixpoint process_line (p : parser) (line : list ascii) : outcome parser :=
  match line with
  | [] => process_char p None
  | c :: line' => p' ← process_char p (Some c); process_line p' line'
  end.

(** What an iterator gives before it stops: the items, and the exception
    that ended it if one did.  The reader is lazy, so the items before an
    ill-formed record are seen by the loop that consumes them. *)
Definition stream (A : Type) : Type := list A * option failure.

(** The records of [csv.reader(lines)].  A record ends with a line unless
    a quoted field is open; at the end of the input an open record is
    closed. *)
Fixpoint read_records (lines : list (list ascii)) (p : parser) : stream (list string) :=
  match lines with
  | [] =>
      if negb (bool_decide (field p = [])) || bool_decide (state p = IN_QUOTED_FIELD)
      then ([fields (save_field p START_RECORD)], None)
      else ([], None)
  | line :: rest =>
      match process_line p line with
      | Failed e => ([], Some e)
      | Returned p' =>
          if bool_decide (state p' = START_RECORD)
          then let '(records, e) := read_records rest start_parser in
               (fields p' :: records, e)
          else read_records rest p'
      end
  end.

Definition csv_reader (text : string) : stream (list string) :=
  read_records (lines_of (chars text)) start_parser.

(** ** [csv.DictReader] *)

(** A row: the cells by column name, [None] for a column the line is too
    short for, and the cells beyond the last column, which Python keeps
    in a list under the key [None]. *)
Record csv_row : Type := mk_row {
  cells : record;
  rest_cells : option (list string)
}.

(** [dict(zip(fieldnames, row))], then the short or the long row. *)
Definition make_row (fieldnames row : list string) : csv_row :=
  let d := foldl (λ (m : record) '(k, v), <[k := PStr v]> m) ∅ (zip fieldnames row) in
  if (length fieldnames <? length row)%nat
  then mk_row d (Some (drop (length fieldnames) row))
  else mk_row (foldl (λ (m : record) k, <[k := PNone]> m) d
                 (drop (length row) fieldnames)) None.

(** The first record names the columns; empty records after it are
    skipped. *)
Definition dict_reader (text : string) : stream csv_row :=
  match csv_reader text with
  | ([], e) => ([], e)
  | (fieldnames :: records, e) =>
      (make_row fieldnames <$> List.filter (λ r, negb (bool_decide (r = []))) records, e)
  end.

(** [list(it)] *)
Definition list_of {A} (it : stream A) : outcome (list A) :=
  match it with
  | (items, None) => Returned items
  | (_, Some e) => Failed e
  end.

(** [[x for x in it if cond(x)]]: the condition is evaluated on each item
    as it comes; the exception that ends the iterator comes last. *)
Fixpoint comprehension {A} (cond : A → result bool) (items : list A)
    (e : option failure) : outcome (list A) :=
  match items with
  | [] => match e with None => Returned [] | Some f => Failed f end
  | x :: items' =>
      keep ← of_result (cond x);
      kept ← comprehension cond items' e;
      Returned (if keep : bool then x :: kept else kept)
  end.

(** ** The listing methods *)

(** Computations on the world that may also raise [_csv.Error]. *)
Definition API (A : Type) : Type := World → outcome A * World.

#[global] Instance API_ret : MRet API := fun _ a w => (Returned a, w).
#[global] Instance API_bind : MBind API := fun _ _ f m w =>
  match m w with
  | (Returned a, w') => f a w'
  | (Failed e, w') => (Failed e, w')
  end.

Definition call {A} (m : IO A) : API A := fun w =>
  let '(r, w') := m w in (of_result r, w').

Definition pure {A} (r : outcome A) : API A := fun w => (r, w).

(** [s['i_can_see_data'] == 'true' and
     s['there_are_data_which_i_cannot_see'] == 'false'] *)
Definition visible (s : csv_row) : result bool :=
  seen ← getitem (cells s) "i_can_see_data";
  if eq_str seen "true" then
    hidden ← getitem (cells s) "there_are_data_which_i_cannot_see";
    Ok (eq_str hidden "false")
  else Ok false.

Definition studies_query : params :=
  [("entity_type", PStr "study"); ("i_can_see_data", PStr "true");
   ("there_are_data_which_i_cannot_see", PStr "false")].

(** [getStudies]; [None] is Python's [None], returned when the text is
    empty. *)
Definition getStudies (self : MovebankAPI) : API (option (list csv_row)) :=
  studies ← call (callMovebankAPI self studies_query);
  if (0 <? String.length studies)%nat then
    let '(rows, e) := dict_reader studies in
    all_studies ← pure (comprehension visible rows e);
    mret (Some all_studies)
  else mret None.

(** [needle in hay] for the values of a row. *)
Definition py_in (needle hay : pyval) : result bool :=
  match hay, needle with
  | PStr h, PStr n => Ok (str_contains n h)
  | _, _ => Raise TypeError
  end.

(** [getStudiesBySensor] *)
Definition getStudiesBySensor (studies : list csv_row) (sensorname : pyval)
    : result (list csv_row) :=
  let has_sensor (s : csv_row) :=
    ids ← getitem (cells s) "sensor_type_ids"; py_in sensorname ids in
  (fix loop (l : list csv_row) : result (list csv_row) :=
     match l with
     | [] => Ok []
     | s :: l' =>
         keep ← has_sensor s;
         kept ← loop l';
         Ok (if keep : bool then s :: kept else kept)
     end) studies.

(** [getIndividualsByStudy] *)
Definition getIndividualsByStudy (self : MovebankAPI) : API (option (list csv_row)) :=
  individuals ← call (callMovebankAPI self
                        [("entity_type", PStr "individual");
                         ("study_id", study_id self)]);
  if (0 <? String.length individuals)%nat then
    rows ← pure (list_of (dict_reader individuals));
    mret (Some rows)
  else mret None.

(** What [getIndividualEvents] returns: nothing, the rows as read, or
    the rows transformed. *)
Inductive events : Type :=
| NoEvents
| Rows (rows : list csv_row)
| Fixes (fixes : list gps_fix)
| Bursts (bursts : list (list sample)).

(** [v == n] for an integer literal [n]: an [int] or a [float] of that
    value. *)
Definition eq_int (v : pyval) (n : Z) : bool :=
  match v with
  | PInt z => z =? n
  | PFloat f => (f =? round_Z n 0)%float
  | _ => false
  end.

Definition events_query (self : MovebankAPI) (individual_id sensor_type_id : pyval)
    : params :=
  [("entity_type", PStr "event"); ("study_id", study_id self);
   ("individual_id", individual_id); ("sensor_type_id", sensor_type_id);
   ("attributes", PStr "all")].

Definition prints (lines : list string) : API unit := fun w =>
  (Returned (), mk_world (environ w) (transport w) (sent w) (stdout w ++ lines)).

(** [getIndividualEvents].  The decoders read the cells by name only, so
    they are given the cells of each row. *)
Definition getIndividualEvents (self : MovebankAPI)
    (individual_id sensor_type_id : pyval) (transform : bool) : API events :=
  events_ ← call (callMovebankAPI self (events_query self individual_id sensor_type_id));
  if (0 <? String.length events_)%nat then
    rows ← pure (list_of (dict_reader events_));
    if eq_int sensor_type_id 653 && transform then
      let '(fixes, _, out) := transformRawGPS (cells <$> rows) in
      _ ← prints out;
      fixes ← pure (of_result fixes);
      mret (Fixes fixes)
    else if eq_int sensor_type_id 2365683 && transform then
      bursts ← pure (of_result
                       (transformRawACC (cells <$> rows) (PStr "m/s2") (PStr "high")));
      mret (Bursts bursts)
    else mret (Rows rows)
  else mret NoEvents.

(** ** Sample data *)

Definition make_record (fields : list (string * string)) : record :=
  list_to_map (prod_map id PStr <$> fields).

(** A burst of three samples at 10 Hz. *)
Definition burst_10hz : record :=
  make_record
    [("tag_local_identifier", "2000"); ("deployment_id", "77");
     ("timestamp", "2020-01-01 00:00:00.000000");
     ("acceleration_sampling_frequency_per_axis", "10");
     ("accelerations_raw", "2048 2048 2048 3048 1048 2049 0 4095 2047")].

(** What the burst decodes to in metres per second squared, for a tag of
    the first generation in high sensitivity. *)
Definition burst_10hz_decoded : list sample :=
  [("2020-01-01 00:00:00.000000", PStr "77", 0, 0, 0);
   ("2020-01-01 00:00:00.100000", PStr "77", 9.81, -9.81, 0.009810000000000001);
   ("2020-01-01 00:00:00.200000", PStr "77",
    -20.090880000000002, 20.081070000000004, -0.009810000000000001)]%float.

(** Two bursts of one sample each, from tags of different generations. *)
Definition burst_tag (tag : string) : record :=
  make_record
    [("tag_local_identifier", tag); ("deployment_id", "77");
     ("timestamp", "2020-01-01 00:00:00.000000");
     ("acceleration_sampling_frequency_per_axis", "10");
     ("accelerations_raw", "3048 2048 1048")].



(** A burst of one sample that starts in the year 999. *)
Definition burst_year_999 : record :=
  make_record
    [("tag_local_identifier", "2000"); ("deployment_id", "77");
     ("timestamp", "0999-01-01 00:00:00.5");
     ("acceleration_sampling_frequency_per_axis", "10");
     ("accelerations_raw", "2048 2048 2048")].

(** A first answer that presents license terms, with a session cookie. *)
Definition terms : list byte :=
  bytes_of "License Terms: the data may be used for research only.".

Definition session : cookie_jar := [("JSESSIONID", "0A1B2C")].

Definition terms_response : Response :=
  mk_response 200 terms session
    "https://www.movebank.org/movebank/service/direct-read?entity_type=study".

Definition study_query : params :=
  [("entity_type", PStr "study"); ("i_can_see_data", PStr "true")].

(** A server that presents the terms and refuses whatever comes next. *)
Definition refusing_server (history : list Request) : result Response :=
  match history with
  | [_] => Ok terms_response
  | _ => Ok (mk_response 403 (bytes_of "Forbidden") [] direct_read)
  end.

(** A server that presents the terms, then releases the data to a request
    that carries the session cookie and the digest of the terms. *)
Definition accepting_server (history : list Request) : result Response :=
  match history with
  | [_] => Ok terms_response
  | [_; second] =>
      if bool_decide (req_cookies second = Some session) then
        match last (req_params second) with
        | Some (name, PStr digest) =>
            if String.eqb name "license-md5"
               && String.eqb digest (MD5.hexdigest terms)
            then Ok (mk_response 200 (bytes_of "id,name") [] direct_read)
            else Ok (mk_response 403 [] [] direct_read)
        | _ => Ok (mk_response 403 [] [] direct_read)
        end
      else Ok (mk_response 403 [] [] direct_read)
  | _ => Raise RequestException
  end.

Definition alice : MovebankAPI := mk_api "alice" "secret" PNone.

(** Worlds in which nothing has been sent or printed yet. *)
Definition fresh_world (env : list (string * string))
    (server : list Request → result Response) : World :=
  mk_world (list_to_map env) server [] [].

(** The two requests of a handshake of [alice] with [study_query], when
    the environment names [user] and [pass]. *)
Definition first_request : Request :=
  mk_request direct_read study_query None ("alice", "secret").

Definition second_request (user pass : string) : Request :=
  mk_request direct_read
    (study_query ++ [("license-md5", PStr "eb617c5b6ed3390332e7e8a2b263e9c4")])
    (Some session) (user, pass).

(** Location rows. *)
Definition gps_row (lat long : string) : record :=
  make_record
    [("timestamp", "2020-01-01 00:00:00.000"); ("deployment_id", "77");
     ("location_lat", lat); ("location_long", long)].

(** What the description of the normalizer promises for one coordinate:
    a number when the field is a text that is not empty and reads as one,
    the field as it is otherwise. *)
Definition coordinate (v : pyval) : pyval :=
  match v with
  | PStr s =>
      if String.eqb s "" then v
      else match float_of_chars (chars s) with
           | Ok f => PFloat f
           | Raise _ => v
           end
  | _ => v
  end.

(** The conversion of a field raises: the field is a text that is not
    empty and does not read as a number, or it is no text at all (and has
    no length). *)
Definition conversion_fails (v : pyval) : bool :=
  match v with
  | PStr s => negb (String.eqb s "") && negb (is_ok (float_of_chars (chars s)))
  | _ => true
  end.

(** Checks run over whole ranges in the proofs about dates. *)
Definition month_day_ok (leap : bool) (n : Z) : bool :=
  let '(m, d) := month_day leap n in
  (1 <=? m) && (m <=? 12) && (1 <=? d) && (d <=? month_length leap m).

(** The fields of a [datetime] are in range. *)
Definition valid_datetime (t : datetime) : Prop :=
  make_datetime (year t) (month t) (day t) (hour t) (minute t) (second t)
                (microsecond t) = Ok t.

(** A field printed on two digits is read back by the alternatives of its
    directive, whatever follows. *)
Definition reads_back (re : list matcher) (v : Z) : Prop :=
  ∀ (A : Type) (rest : list ascii) (k : Z → list ascii → option A) (x : A),
    k v rest = Some x → alternatives re (zero_filled 2 v ++ rest) k = Some x.

(** ** Predicates and data for the listing methods *)

(** The study names the sensor among its sensor types. *)
Definition mentions (sensorname : string) (s : csv_row) : bool :=
  match cells s !! "sensor_type_ids" with
  | Some (PStr ids) => str_contains sensorname ids
  | _ => false
  end.


(** The columns [transformRawGPS] reads. *)
Definition location_fields : list string :=
  ["timestamp"; "deployment_id"; "location_lat"; "location_long"].

(** A location row without deployment. *)
Definition gps_row_without_deployment : record :=
  make_record
    [("timestamp", "2020-01-01 00:00:00.000"); ("location_lat", "north");
     ("location_long", "8.5")].

(** The answers after which a call returns the empty text: an empty body
    with status 200, or terms followed by a second answer that is
    refused (status 403) or empty. *)
Definition answers_nothing (self : MovebankAPI) (ps : params) (w : World) : Prop :=
  ∃ first : Response,
    transport w (sent w ++ [mk_request direct_read ps None (username self, password self)])
    = Ok first
    ∧ status_code first = 200
    ∧ (content first = []
       ∨ (str_contains license_marker (repr_bytes (content first)) = true
          ∧ ∃ (mbus mbpw : string) (second : Response),
              environ w !! "mbus" = Some mbus
              ∧ environ w !! "mbpw" = Some mbpw
              ∧ transport w
                  (sent w
                   ++ [mk_request direct_read ps None (username self, password self);
                       mk_request direct_read
                         (ps ++ [("license-md5", PStr (MD5.hexdigest (content first)))])
                         (Some (cookies first)) (mbus, mbpw)])
                = Ok second
              ∧ (status_code second = 403 ∨ content second = []))).

(** The study is shown by [getStudies]. *)
Definition shown (s : csv_row) : bool :=
  eq_str (default PNone (cells s !! "i_can_see_data")) "true"
  && eq_str (default PNone (cells s !! "there_are_data_which_i_cannot_see")) "false".

(** A server that gives the same answer to every request. *)
Definition constant_server (answer : Response) (history : list Request)
    : result Response :=
  Ok answer.

Definition unauthorized : Response :=
  mk_response 401 (bytes_of "<html><body>HTTP Status 401</body></html>") []
    direct_read.

Definition LF : string := String "010"%char EmptyString.

Definition table (text : string) : Response :=
  mk_response 200 (bytes_of text) [] direct_read.

Definition studies_header : list string :=
  ["id"; "name"; "i_can_see_data"; "there_are_data_which_i_cannot_see";
   "sensor_type_ids"].

Definition studies_table : string :=
  "id,name,i_can_see_data,there_are_data_which_i_cannot_see,sensor_type_ids" +:+ LF
  +:+ "1,Storks,true,false,GPS" +:+ LF
  +:+ "2,Owls,false,false,GPS" +:+ LF
  +:+ "3,Bats,true,true,Acceleration" +:+ LF.

(** A server that presents the terms and then fails: the second answer
    has status 500. *)
Definition failing_server (history : list Request) : result Response :=
  match history with
  | [_] => Ok terms_response
  | _ => Ok (mk_response 500 (bytes_of "Internal Server Error") [] direct_read)
  end.

(** Tables as text.  A cell is plain when it needs no quoting: it holds
    no comma, no double quote and no line break, and fits a field.  A row
    is written as its cells between commas, followed by the end of line. *)
Definition CR : string := String "013"%char EmptyString.

Definition plain_char (c : ascii) : bool :=
  negb (is_newline c) && negb (is_comma c) && negb (is_quote c).

Definition plain (cell : string) : bool :=
  forallb plain_char (chars cell)
  && (Z.of_nat (String.length cell) <=? field_limit).

(** A row of plain cells that is not written as an empty line. *)
Definition proper (row : list string) : bool :=
  negb (bool_decide (row = [])) && negb (bool_decide (row = [""]))
  && forallb plain row.

Definition csv_line (eol : string) (row : list string) : string :=
  String.concat "," row +:+ eol.

Definition csv_text (eol : string) (rows : list (list string)) : string :=
  foldr (λ row text, csv_line eol row +:+ text) "" rows.

Definition individuals_table : list (list string) :=
  [["id"; "local_identifier"; "sex"; "comments"];
   ["11"; "Anna"; "f"; ""];
   ["12"; "Bert"];
   ["13"; ""; "m"; "ringed 2019"; "extra"]].

(** The value a row holds for the column at index [j]. *)
Definition cell_value (row : list string) (j : nat) : pyval :=
  from_option PStr PNone (row !! j).

Definition locations_table : list (list string) :=
  [["timestamp"; "location_lat"; "location_long"; "deployment_id"; "visible"];
   ["2020-01-01 00:00:00.000"; "47.25"; "8.5"; "77"; "true"];
   ["2020-01-01 00:05:00.000"; "north"; "8.5"; "77"; "true"];
   ["2020-01-01 00:10:00.000"; ""; ""; "77"];
   ["2020-01-01 00:15:00.000"]].

(** * Properties *)

Ltac by_computation := vm_compute; reflexivity.

(** ** The error monad *)

Lemma bind_Ok {A B} (m : result A) (f : A → result B) (b : B) :
  m ≫= f = Ok b ↔ ∃ a, m = Ok a ∧ f a = Ok b.
Proof.
  destruct m as [a|e]; simpl; split.
  - intros H. exists a. auto.
  - intros (a' & Ha & Hf). congruence.
  - discriminate.
  - intros (a' & Ha & _). discriminate.
Qed.

Lemma mapM_result_Forall2 {A B} (f : A → result B) (l : list A) (ys : list B) :
  mapM_result f l = Ok ys ↔ Forall2 (λ x y, f x = Ok y) l ys.
Proof.
  revert ys. induction l as [|x l IH]; intros ys; simpl.
  - split.
    + intros [= <-]. constructor.
    + intros H. inversion H. reflexivity.
  - split.
    + intros H. apply bind_Ok in H as (y & Hy & H').
      apply bind_Ok in H' as (ys' & Hys & [= <-]).
      constructor; [exact Hy | by apply IH].
    + intros H. inversion H as [|? y ? ys' Hy Hys]; subst.
      apply IH in Hys.
      repeat (apply bind_Ok; eexists; split; [eassumption|]). reflexivity.
Qed.

Lemma mapM_result_length {A B} (f : A → result B) l ys :
  mapM_result f l = Ok ys → length ys = length l.
Proof.
  intros H. apply mapM_result_Forall2 in H. symmetry. by eapply Forall2_length.
Qed.

Lemma mapM_result_lookup {A B} (f : A → result B) l ys i y :
  mapM_result f l = Ok ys → ys !! i = Some y →
  ∃ x, l !! i = Some x ∧ f x = Ok y.
Proof.
  intros H Hy. apply mapM_result_Forall2 in H.
  destruct (Forall2_lookup_r _ _ _ _ _ H Hy) as (x & Hx & Hf). eauto.
Qed.

(** One failing element makes the comprehension fail. *)
Lemma mapM_result_fails {A B} (f : A → result B) l i x :
  l !! i = Some x → is_ok (f x) = false → is_ok (mapM_result f l) = false.
Proof.
  intros Hx Hf. destruct (mapM_result f l) as [ys|e] eqn:E; [|reflexivity].
  apply mapM_result_Forall2 in E.
  destruct (Forall2_lookup_l _ _ _ _ _ E Hx) as (y & _ & Hy).
  rewrite Hy in Hf. discriminate.
Qed.

(** ** Text *)

Lemma starts_with_app (p l : list ascii) : starts_with p (p ++ l) = true.
Proof.
  induction p as [|c p IH]; simpl; [reflexivity|].
  rewrite Ascii.eqb_refl. exact IH.
Qed.

Lemma contains_app (needle pre post : list ascii) :
  contains needle (pre ++ needle ++ post) = true.
Proof.
  induction pre as [|c pre IH]; simpl.
  - pose proof (starts_with_app needle post) as H.
    destruct (needle ++ post); simpl; rewrite H; reflexivity.
  - rewrite IH. apply orb_true_r.
Qed.

Lemma chars_unchars (l : list ascii) : chars (unchars l) = l.
Proof. induction l as [|c l IH]; simpl; congruence. Qed.

(** ** The calibration table *)

(** C2: the slope follows the generation table.  Tags up to 2241 get
    0.0027 in low and 0.001 in high sensitivity; tags from 2242 to 4117 get
    0.0022 and later tags 1/512, whatever the sensitivity; every tag is in
    exactly one of the three ranges. *)
Theorem slope_generation_table (t : Z) (sensitivity : pyval) :
  (t <= 2241 →
     slope t (PStr "low") = 0.0027%float ∧ slope t (PStr "high") = 0.001%float)
  ∧ (2242 <= t <= 4117 → slope t sensitivity = 0.0022%float)
  ∧ (4117 < t → slope t sensitivity = (1 / 512)%float)
  ∧ ((t <= 2241 ∧ ¬ 2242 <= t <= 4117 ∧ ¬ 4117 < t)
     ∨ (¬ t <= 2241 ∧ 2242 <= t <= 4117 ∧ ¬ 4117 < t)
     ∨ (¬ t <= 2241 ∧ ¬ 2242 <= t <= 4117 ∧ 4117 < t)).
Proof.
  unfold slope. split; [|split; [|split]].
  - intros H. apply Z.leb_le in H. rewrite H. split; reflexivity.
  - intros [H1 H2].
    assert ((t <=? 2241) = false) as -> by (apply Z.leb_gt; lia).
    apply Z.leb_le in H1, H2. rewrite H1, H2. reflexivity.
  - intros H.
    assert ((t <=? 2241) = false) as -> by (apply Z.leb_gt; lia).
    assert ((t <=? 4117) = false) as -> by (apply Z.leb_gt; lia).
    rewrite andb_false_r. reflexivity.
  - lia.
Qed.

(** ** Lists of raw values *)

Lemma list_ind3 {A} (P : list A → Prop) :
  P [] → (∀ a, P [a]) → (∀ a b, P [a; b]) →
  (∀ a b c l, P l → P (a :: b :: c :: l)) →
  ∀ l, P l.
Proof.
  intros H0 H1 H2 H3 l.
  enough (P l ∧ (∀ a, P (a :: l)) ∧ (∀ a b, P (a :: b :: l))) by tauto.
  induction l as [|c l (IH0 & IH1 & IH2)].
  - auto.
  - repeat split; auto.
Qed.

Lemma div3_succ (n : nat) : (S (S (S n)) / 3 = S (n / 3))%nat.
Proof.
  change (S (S (S n))) with (1 * 3 + n)%nat.
  rewrite Nat.div_add_l by lia. lia.
Qed.

Lemma triples_length (raw : list Z) : length (triples raw) = (length raw / 3)%nat.
Proof.
  induction raw as [| a | a b | a b c l IH] using list_ind3; try reflexivity.
  cbn [triples length]. rewrite div3_succ. by f_equal.
Qed.

(** The [i]-th triple is made of the raw values [3i], [3i+1] and [3i+2]. *)
Lemma triples_lookup (raw : list Z) (i : nat) b0 b1 b2 :
  triples raw !! i = Some (b0, b1, b2) →
  raw !! (3 * i)%nat = Some b0 ∧ raw !! (3 * i + 1)%nat = Some b1
  ∧ raw !! (3 * i + 2)%nat = Some b2.
Proof.
  revert i. induction raw as [| a | a b | a b c l IH] using list_ind3;
    intros i; try discriminate.
  destruct i as [|i]; cbn [triples].
  - intros [= -> -> ->]. auto.
  - intros H. apply IH in H.
    replace (3 * S i)%nat with (S (S (S (3 * i)))) by lia.
    exact H.
Qed.

Lemma range_lookup (n i : nat) (x : Z) :
  range n !! i = Some x → x = Z.of_nat i ∧ (i < n)%nat.
Proof.
  unfold range. rewrite list_lookup_fmap.
  destruct (seq 0 n !! i) as [j|] eqn:E; [|discriminate].
  apply lookup_seq in E as [-> ?]. intros [= <-]. auto.
Qed.

(** ** The calendar *)

Lemma month_day_valid (leap : bool) (n : Z) :
  0 <= n < 365 → month_day_ok leap n = true.
Proof.
  intros H.
  assert (forallb (month_day_ok leap) (seqZ 0 365) = true) as Hall
    by (destruct leap; vm_compute; reflexivity).
  rewrite forallb_forall in Hall. apply Hall.
  apply list_elem_of_In, elem_of_seqZ. lia.
Qed.

(** The leap year test of [ord2ymd], made on the position of the year in
    its cycle of 400 years, agrees with [is_leap]. *)
Lemma is_leap_in_cycle (n400 n100 n4 n1 : Z) :
  0 <= n100 <= 3 → 0 <= n4 <= 24 → 0 <= n1 <= 3 →
  is_leap (n400 * 400 + 1 + n100 * 100 + n4 * 4 + n1)
  = (n1 =? 3) && (negb (n4 =? 24) || (n100 =? 3)).
Proof.
  intros H100 H4 H1. unfold is_leap.
  set (y := n400 * 400 + 1 + n100 * 100 + n4 * 4 + n1).
  assert ((y mod 4 =? 0) = (n1 =? 3)) as ->.
  { destruct (Z.eqb_spec n1 3); [apply Z.eqb_eq | apply Z.eqb_neq];
      subst y; Z.div_mod_to_equations; lia. }
  assert ((y mod 100 =? 0) = (n1 =? 3) && (n4 =? 24)) as ->.
  { destruct (Z.eqb_spec n1 3), (Z.eqb_spec n4 24); cbn [andb];
      [apply Z.eqb_eq | apply Z.eqb_neq ..];
      subst y; Z.div_mod_to_equations; lia. }
  assert ((y mod 400 =? 0) = (n1 =? 3) && (n4 =? 24) && (n100 =? 3)) as ->.
  { destruct (Z.eqb_spec n1 3), (Z.eqb_spec n4 24), (Z.eqb_spec n100 3);
      cbn [andb]; [apply Z.eqb_eq | apply Z.eqb_neq ..];
      subst y; Z.div_mod_to_equations; lia. }
  destruct (n1 =? 3), (n4 =? 24), (n100 =? 3); reflexivity.
Qed.

(** Every ordinal of the years 1 to 9999 is a date of the calendar. *)
Lemma ord2ymd_valid (n y m d : Z) :
  1 <= n <= MAXORDINAL →
  ord2ymd n = (y, m, d) →
  1 <= y <= 9999 ∧ 1 <= m <= 12 ∧ 1 <= d <= days_in_month y m.
Proof.
  unfold MAXORDINAL, ord2ymd. intros Hn. cbv zeta.
  set (a := n - 1).
  set (n400 := a / 146097). set (r1 := a mod 146097).
  set (n100 := r1 / 36524). set (r2 := r1 mod 36524).
  set (n4 := r2 / 1461). set (r3 := r2 mod 1461).
  set (n1 := r3 / 365). set (r4 := r3 mod 365).
  assert (a = 146097 * n400 + r1 ∧ 0 <= r1 < 146097
          ∧ r1 = 36524 * n100 + r2 ∧ 0 <= r2 < 36524
          ∧ r2 = 1461 * n4 + r3 ∧ 0 <= r3 < 1461
          ∧ r3 = 365 * n1 + r4 ∧ 0 <= r4 < 365
          ∧ 0 <= a <= 3652058)
    as (E1 & B1 & E2 & B2 & E3 & B3 & E4 & B4 & Ba).
  { subst n400 r1 n100 r2 n4 r3 n1 r4 a.
    repeat split; try (Z.div_mod_to_equations; lia). }
  clearbody n400 r1 n100 r2 n4 r3 n1 r4 a.
  destruct ((n1 =? 4) || (n100 =? 4)) eqn:Elast.
  - intros [= <- <- <-].
    assert (n1 = 4 ∨ n100 = 4) as Hcase
      by (apply orb_true_iff in Elast as [?%Z.eqb_eq | ?%Z.eqb_eq]; auto).
    split; [lia|]. split; [lia|].
    unfold days_in_month. destruct (is_leap _); cbn; lia.
  - apply orb_false_iff in Elast as [N1%Z.eqb_neq N100%Z.eqb_neq].
    assert (0 <= n100 <= 3 ∧ 0 <= n4 <= 24 ∧ 0 <= n1 <= 3) as (H100 & H4 & H1) by lia.
    pose proof (month_day_valid ((n1 =? 3) && (negb (n4 =? 24) || (n100 =? 3))) r4 B4)
      as Hmd.
    unfold month_day_ok in Hmd.
    destruct (month_day _ r4) as [m' d'].
    intros [= <- <- <-].
    unfold days_in_month. rewrite is_leap_in_cycle by assumption.
    repeat (apply andb_true_iff in Hmd as [Hmd ?]).
    split; [lia|]. lia.
Qed.

(** What [datetime_add] returns has its fields in range. *)
Lemma datetime_add_valid (dt : datetime) (delta : Z) (t : datetime) :
  datetime_add dt delta = Ok t → valid_datetime t.
Proof.
  unfold datetime_add. intros H. apply bind_Ok in H as (total & _ & H).
  destruct ((0 <? total / US_PER_DAY) && (total / US_PER_DAY <=? MAXORDINAL))
    eqn:Hdays; [|discriminate].
  apply andb_true_iff in Hdays as [Hlo%Z.ltb_lt Hhi%Z.leb_le].
  destruct (ord2ymd (total / US_PER_DAY)) as [[y m] d] eqn:Hymd.
  apply ord2ymd_valid in Hymd as (Hy & Hm & Hd); [|lia].
  injection H as <-. unfold valid_datetime, make_datetime.
  cbn [year month day hour minute second microsecond].
  set (rem := total mod US_PER_DAY).
  assert (0 <= rem < US_PER_DAY) as Hrem
    by (apply Z.mod_pos_bound; reflexivity).
  unfold US_PER_DAY in Hrem. clearbody rem.
  assert (((1 <=? y) && (y <=? 9999) && (1 <=? m) && (m <=? 12) && (1 <=? d)
           && (d <=? days_in_month y m)
           && (0 <=? rem / 1000000 / 3600) && (rem / 1000000 / 3600 <=? 23)
           && (0 <=? rem / 1000000 mod 3600 / 60)
           && (rem / 1000000 mod 3600 / 60 <=? 59)
           && (0 <=? rem / 1000000 mod 60) && (rem / 1000000 mod 60 <=? 59)
           && (0 <=? rem mod 1000000) && (rem mod 1000000 <=? 999999)) = true) as ->.
  { repeat (apply andb_true_iff; split); apply Z.leb_le;
      try lia; Z.div_mod_to_equations; lia. }
  reflexivity.
Qed.

(** ** Printing and reading a timestamp *)

Lemma digit_char_digit (n : Z) :
  is_digit (digit_char n) = true ∧ digit_val (digit_char n) = n mod 10.
Proof.
  unfold digit_char.
  assert (0 <= n mod 10 < 10) as H by (apply Z.mod_pos_bound; lia).
  revert H. generalize (n mod 10). intros d H.
  assert (d = 0 ∨ d = 1 ∨ d = 2 ∨ d = 3 ∨ d = 4 ∨ d = 5 ∨ d = 6 ∨ d = 7
          ∨ d = 8 ∨ d = 9) as Hd by lia.
  repeat destruct Hd as [-> | Hd]; try subst d; split; reflexivity.
Qed.

Lemma digit_char_not_space (n : Z) : is_space (digit_char n) = false.
Proof.
  unfold digit_char.
  assert (0 <= n mod 10 < 10) as H by (apply Z.mod_pos_bound; lia).
  revert H. generalize (n mod 10). intros d H.
  assert (d = 0 ∨ d = 1 ∨ d = 2 ∨ d = 3 ∨ d = 4 ∨ d = 5 ∨ d = 6 ∨ d = 7
          ∨ d = 8 ∨ d = 9) as Hd by lia.
  repeat destruct Hd as [-> | Hd]; try subst d; reflexivity.
Qed.

Ltac read_back_range re lo len :=
  let l := eval vm_compute in (seqZ lo len) in
  assert (Forall (reads_back re) l) as Hall
    by (repeat (constructor; [intros A rest k x Hk; vm_compute; rewrite Hk; reflexivity|]);
        constructor);
  rewrite Forall_forall in Hall; apply Hall;
  change l with (seqZ lo len); apply elem_of_seqZ; lia.

Lemma reads_back_m (v : Z) : 1 <= v <= 12 → reads_back re_m v.
Proof. intros H. read_back_range re_m 1 12. Qed.

Lemma reads_back_d (v : Z) : 1 <= v <= 31 → reads_back re_d v.
Proof. intros H. read_back_range re_d 1 31. Qed.

Lemma reads_back_H (v : Z) : 0 <= v <= 23 → reads_back re_H v.
Proof. intros H. read_back_range re_H 0 24. Qed.

Lemma reads_back_M (v : Z) : 0 <= v <= 59 → reads_back re_M v.
Proof. intros H. read_back_range re_M 0 60. Qed.

Lemma reads_back_S (v : Z) : 0 <= v <= 59 → reads_back re_S v.
Proof. intros H. read_back_range re_S 0 60. Qed.

Lemma reads_back_Y (y : Z) (A : Type) (rest : list ascii)
    (k : Z → list ascii → option A) (x : A) :
  0 <= y <= 9999 →
  k y rest = Some x → alternatives re_Y (zero_filled 4 y ++ rest) k = Some x.
Proof.
  intros Hy Hk. cbn [zero_filled app re_Y alternatives].
  destruct (digit_char_digit (y / 10 / 10 / 10)) as [-> ->].
  destruct (digit_char_digit (y / 10 / 10)) as [-> ->].
  destruct (digit_char_digit (y / 10)) as [-> ->].
  destruct (digit_char_digit y) as [-> ->].
  cbn [andb].
  replace (((y / 10 / 10 / 10 mod 10 * 10 + y / 10 / 10 mod 10) * 10
            + y / 10 mod 10) * 10 + y mod 10) with y
    by (Z.div_mod_to_equations; lia).
  rewrite Hk. reflexivity.
Qed.

Lemma fraction_zero_filled (us : Z) :
  0 <= us <= 999999 → fraction 6 (zero_filled 6 us) 0 = (us, []).
Proof.
  intros H. cbn [zero_filled app fraction].
  destruct (digit_char_digit (us / 10 / 10 / 10 / 10 / 10)) as [-> ->].
  destruct (digit_char_digit (us / 10 / 10 / 10 / 10)) as [-> ->].
  destruct (digit_char_digit (us / 10 / 10 / 10)) as [-> ->].
  destruct (digit_char_digit (us / 10 / 10)) as [-> ->].
  destruct (digit_char_digit (us / 10)) as [-> ->].
  destruct (digit_char_digit us) as [-> ->].
  f_equal. Z.div_mod_to_equations. lia.
Qed.

Lemma make_datetime_Ok (y m d hh mm ss us : Z) (t : datetime) :
  make_datetime y m d hh mm ss us = Ok t →
  t = mk_datetime y m d hh mm ss us
  ∧ 1 <= y <= 9999 ∧ 1 <= m <= 12 ∧ 1 <= d <= 31
  ∧ 0 <= hh <= 23 ∧ 0 <= mm <= 59 ∧ 0 <= ss <= 59 ∧ 0 <= us <= 999999.
Proof.
  unfold make_datetime. intros H.
  destruct (_ && _) eqn:E in H; [|discriminate]. injection H as <-.
  repeat (apply andb_true_iff in E as [E ?%Z.leb_le]).
  apply Z.leb_le in E.
  assert (days_in_month y m <= 31)
    by (unfold days_in_month, month_length;
        repeat match goal with |- context [if ?b then _ else _] => destruct b end; lia).
  repeat split; lia.
Qed.

(** A timestamp of the year 1000 or later printed by [strftime] is read
    back by [strptime] as the same time: the output is in the format of
    the input. *)
Lemma strptime_strftime (t : datetime) :
  valid_datetime t → 1000 <= year t → strptime (PStr (strftime t)) = Ok t.
Proof.
  intros Hv Hlong. pose proof Hv as Hv'. unfold valid_datetime in Hv'.
  apply make_datetime_Ok in Hv' as (_ & Hy & Hm & Hd & Hh & HM & Hs & Hus).
  unfold strptime, strftime. rewrite chars_unchars.
  assert (year_digits (year t) = zero_filled 4 (year t)) as ->.
  { unfold year_digits. by rewrite !(proj2 (Z.ltb_ge _ _)) by lia. }
  assert (strptime_chars
            (zero_filled 4 (year t) ++ ["-"%char] ++ zero_filled 2 (month t)
             ++ ["-"%char] ++ zero_filled 2 (day t) ++ [" "%char]
             ++ zero_filled 2 (hour t) ++ [":"%char] ++ zero_filled 2 (minute t)
             ++ [":"%char] ++ zero_filled 2 (second t) ++ ["."%char]
             ++ zero_filled 6 (microsecond t))
          = Some (year t, month t, day t, hour t, minute t, second t, microsecond t))
    as ->; [|exact Hv].
  unfold strptime_chars.
  match goal with
  | |- ?inner ≫= _ = _ =>
      assert (inner = Some (year t, month t, day t, hour t, minute t, second t,
                             (microsecond t, [])))
        as ->; [|reflexivity]
  end.
  apply reads_back_Y; [lia|].
  cbn [app literal]. rewrite Ascii.eqb_refl.
  apply reads_back_m; [lia|].
  cbn [app literal]. rewrite Ascii.eqb_refl.
  apply reads_back_d; [lia|].
  cbn [app spaces]. change (is_space " ") with true. cbv iota.
  assert (∀ v rest, lstrip is_space (zero_filled 2 v ++ rest) = zero_filled 2 v ++ rest)
    as -> by (intros v rest; cbn [zero_filled app lstrip];
              rewrite digit_char_not_space; reflexivity).
  apply reads_back_H; [lia|].
  cbn [app literal]. rewrite Ascii.eqb_refl.
  apply reads_back_M; [lia|].
  cbn [app literal]. rewrite Ascii.eqb_refl.
  apply reads_back_S; [lia|].
  cbn [app literal]. rewrite Ascii.eqb_refl.
  rewrite (fraction_zero_filled _ Hus).
  cbn [zero_filled app].
  destruct (digit_char_digit (microsecond t / 10 / 10 / 10 / 10 / 10)) as [-> _].
  reflexivity.
Qed.

(** A timestamp of a year before 1000 is printed with fewer than four
    digits for the year, which [strptime] refuses: the format wants
    four. *)
Lemma strptime_short_year (t : datetime) :
  valid_datetime t → year t < 1000 → strptime (PStr (strftime t)) = Raise ValueError.
Proof.
  intros Hv Hshort. unfold valid_datetime in Hv.
  apply make_datetime_Ok in Hv as (_ & Hy & _).
  unfold strptime, strftime. rewrite chars_unchars.
  assert (is_digit "-" = false) as Hdash by reflexivity.
  assert (∀ rest, strptime_chars (year_digits (year t) ++ ["-"%char] ++ rest) = None)
    as ->; [|reflexivity].
  intros rest. unfold strptime_chars, year_digits.
  destruct (year t <? 10); [|destruct (year t <? 100);
                               [|rewrite (proj2 (Z.ltb_lt _ _)) by lia]].
  all: cbn [zero_filled app re_Y alternatives].
  all: rewrite Hdash, ?andb_false_r.
  all: repeat match goal with
              | |- context [match ?l with [] => _ | _ :: _ => _ end] => destruct l
              end.
  all: reflexivity.
Qed.

(** ** Decoding one burst *)

Lemma decode_event_Ok (sl uf : float) (event : record) (samples : list sample) :
  decode_event sl uf event = Ok samples ↔
  ∃ deploym seconds parsedts raw ts,
    getitem event "deployment_id" = Ok deploym
    ∧ seconds_of event = Ok seconds
    ∧ parsedts_of event = Ok parsedts
    ∧ raw_of event = Ok raw
    ∧ mapM_result (interpolate parsedts seconds) (range (length raw / 3)) = Ok ts
    ∧ mapM_result (transformed sl uf deploym) (zip ts (triples raw)) = Ok samples.
Proof.
  unfold decode_event. split.
  - intros H.
    apply bind_Ok in H as (deploym & H1 & H).
    apply bind_Ok in H as (seconds & H2 & H).
    apply bind_Ok in H as (parsedts & H3 & H).
    apply bind_Ok in H as (raw & H4 & H).
    apply bind_Ok in H as (ts & H5 & H).
    exists deploym, seconds, parsedts, raw, ts. auto 10.
  - intros (deploym & seconds & parsedts & raw & ts & H1 & H2 & H3 & H4 & H5 & H6).
    repeat (apply bind_Ok; eexists; split; [eassumption|]). exact H6.
Qed.

(** Every emitted sample comes from one raw triple and one interpolated
    time, at the same index. *)
Lemma decode_event_sample (sl uf : float) (event : record) samples
    deploym seconds parsedts raw (i : nat) stamp dep x y z :
  decode_event sl uf event = Ok samples →
  getitem event "deployment_id" = Ok deploym →
  seconds_of event = Ok seconds →
  parsedts_of event = Ok parsedts →
  raw_of event = Ok raw →
  samples !! i = Some (stamp, dep, x, y, z) →
  ∃ t b0 b1 b2,
    interpolate parsedts seconds (Z.of_nat i) = Ok t
    ∧ triples raw !! i = Some (b0, b1, b2)
    ∧ stamp = strftime t ∧ dep = deploym
    ∧ axis sl uf b0 = Ok x ∧ axis sl uf b1 = Ok y ∧ axis sl uf b2 = Ok z.
Proof.
  intros H Hd Hs Hp Hr Hi.
  apply decode_event_Ok in H
    as (deploym' & seconds' & parsedts' & raw' & ts & H1 & H2 & H3 & H4 & H5 & H6).
  assert (deploym' = deploym) as -> by congruence.
  assert (seconds' = seconds) as -> by congruence.
  assert (parsedts' = parsedts) as -> by congruence.
  assert (raw' = raw) as -> by congruence.
  destruct (mapM_result_lookup _ _ _ _ _ H6 Hi) as ([t [[b0 b1] b2]] & Hz & Ht).
  apply lookup_zip_with_Some in Hz as (t' & b' & [= <- <-] & Hts & Htr).
  destruct (mapM_result_lookup _ _ _ _ _ H5 Hts) as (n & Hn & Hint).
  apply range_lookup in Hn as [-> _].
  unfold transformed in Ht.
  apply bind_Ok in Ht as (x' & Hx & Ht).
  apply bind_Ok in Ht as (y' & Hy & Ht).
  apply bind_Ok in Ht as (z' & Hz' & [= <- <- <- <- <-]).
  exists t, b0, b1, b2. auto 10.
Qed.

Lemma decode_event_length (sl uf : float) (event : record) samples raw :
  decode_event sl uf event = Ok samples →
  raw_of event = Ok raw →
  length samples = (length raw / 3)%nat.
Proof.
  intros H Hr.
  apply decode_event_Ok in H as (? & ? & ? & raw' & ts & _ & _ & _ & H4 & H5 & H6).
  assert (raw' = raw) as -> by congruence.
  apply mapM_result_length in H5, H6.
  rewrite H6, length_zip_with, H5, triples_length.
  unfold range. rewrite length_fmap, length_seq. lia.
Qed.

(** ** Decoding a batch *)

Lemma transformRawACC_Ok (accevents : list record) (unit sensitivity : pyval) out :
  transformRawACC accevents unit sensitivity = Ok out ↔
  ∃ first tag tag_local_identifier,
    accevents !! 0%nat = Some first
    ∧ getitem first "tag_local_identifier" = Ok tag
    ∧ py_int tag = Ok tag_local_identifier
    ∧ Forall2 (λ event samples,
                 decode_event (slope tag_local_identifier sensitivity)
                              (unitfactor unit) event = Ok samples)
              accevents out.
Proof.
  unfold transformRawACC. destruct accevents as [|first rest].
  - split; [discriminate|]. intros (? & ? & ? & [=] & _).
  - split.
    + intros H. apply bind_Ok in H as (tag & H1 & H).
      apply bind_Ok in H as (t & H2 & H).
      apply mapM_result_Forall2 in H.
      exists first, tag, t. auto.
    + intros (first' & tag & t & [= <-] & H1 & H2 & H).
      repeat (apply bind_Ok; eexists; split; [eassumption|]).
      by apply mapM_result_Forall2.
Qed.

(** ** Calibrated values *)

(** The zero-g reading decodes to zero with every slope of the table. *)
Lemma axis_zero (t : Z) (sensitivity unit : pyval) :
  axis (slope t sensitivity) (unitfactor unit) 2048 = Ok 0%float.
Proof.
  unfold axis, slope, unitfactor.
  change (float_of_Z (2048 - 2048)) with (Ok 0%float).
  destruct (t <=? 2241), (eq_str sensitivity "low"), (eq_str unit "g"),
    ((2242 <=? t) && (t <=? 4117)); reflexivity.
Qed.

Lemma axis_Ok (sl uf : float) (b : Z) (x : float) :
  axis sl uf b = Ok x → ∃ f, float_of_Z (b - 2048) = Ok f ∧ x = (f * sl * uf)%float.
Proof.
  unfold axis. intros H. apply bind_Ok in H as (f & Hf & [= <-]). eauto.
Qed.

(** C3: every emitted axis value is [(raw - 2048) * slope * unit_factor],
    computed in binary64, where the raw value is the one at the matching
    position of the interleaved list, the slope is the table's and the unit
    factor is 1 for [g] and 9.81 otherwise; a raw value of 2048 gives 0.0. *)
Theorem axis_values (accevents : list record) (unit sensitivity : pyval)
    (out : list (list sample)) (k : nat) (event : record)
    (samples : list sample) (raw : list Z) (i : nat)
    (stamp : string) (dep : pyval) (x y z : float) :
  transformRawACC accevents unit sensitivity = Ok out →
  accevents !! k = Some event →
  out !! k = Some samples →
  raw_of event = Ok raw →
  samples !! i = Some (stamp, dep, x, y, z) →
  ∃ (first : record) (tag : pyval) (t : Z) (b0 b1 b2 : Z) (f0 f1 f2 : float),
    accevents !! 0%nat = Some first
    ∧ getitem first "tag_local_identifier" = Ok tag ∧ py_int tag = Ok t
    ∧ raw !! (3 * i)%nat = Some b0 ∧ raw !! (3 * i + 1)%nat = Some b1
    ∧ raw !! (3 * i + 2)%nat = Some b2
    ∧ float_of_Z (b0 - 2048) = Ok f0 ∧ float_of_Z (b1 - 2048) = Ok f1
    ∧ float_of_Z (b2 - 2048) = Ok f2
    ∧ x = (f0 * slope t sensitivity * (if eq_str unit "g" then 1 else 9.81))%float
    ∧ y = (f1 * slope t sensitivity * (if eq_str unit "g" then 1 else 9.81))%float
    ∧ z = (f2 * slope t sensitivity * (if eq_str unit "g" then 1 else 9.81))%float
    ∧ (b0 = 2048 → x = 0%float) ∧ (b1 = 2048 → y = 0%float)
    ∧ (b2 = 2048 → z = 0%float).
Proof.
  intros H He Ho Hr Hi.
  apply transformRawACC_Ok in H as (first & tag & t & H0 & Htag & Ht & HF).
  pose proof (Forall2_lookup_lr _ _ _ _ _ _ HF He Ho) as Hdec.
  destruct (proj1 (decode_event_Ok _ _ _ _) Hdec)
    as (deploym & seconds & parsedts & raw' & ts & H1 & H2 & H3 & H4 & _).
  assert (raw' = raw) as -> by congruence.
  destruct (decode_event_sample _ _ _ _ _ _ _ _ _ _ _ _ _ _ Hdec H1 H2 H3 H4 Hi)
    as (tm & b0 & b1 & b2 & _ & Htr & _ & _ & Hx & Hy & Hz).
  apply triples_lookup in Htr as (R0 & R1 & R2).
  destruct (axis_Ok _ _ _ _ Hx) as (f0 & F0 & X).
  destruct (axis_Ok _ _ _ _ Hy) as (f1 & F1 & Y).
  destruct (axis_Ok _ _ _ _ Hz) as (f2 & F2 & Z).
  exists first, tag, t, b0, b1, b2, f0, f1, f2.
  repeat (split; [assumption|]).
  split; [|split].
  - intros ->. rewrite axis_zero in Hx. congruence.
  - intros ->. rewrite axis_zero in Hy. congruence.
  - intros ->. rewrite axis_zero in Hz. congruence.
Qed.

Lemma burst_10hz_decodes :
  transformRawACC [burst_10hz] (PStr "m/s2") (PStr "high") = Ok [burst_10hz_decoded].
Proof. vm_compute. reflexivity. Qed.

Lemma axis_values_witness :
  transformRawACC [burst_10hz] (PStr "m/s2") (PStr "high") = Ok [burst_10hz_decoded]
  ∧ burst_10hz_decoded !! 1%nat
    = Some ("2020-01-01 00:00:00.100000", PStr "77", 9.81, -9.81,
            0.009810000000000001)%float
  ∧ ∃ (first : record) (tag : pyval) (t : Z) (b0 b1 b2 : Z) (f0 f1 f2 : float),
      [burst_10hz] !! 0%nat = Some first
      ∧ getitem first "tag_local_identifier" = Ok tag ∧ py_int tag = Ok t
      ∧ [2048; 2048; 2048; 3048; 1048; 2049; 0; 4095; 2047] !! 3%nat = Some b0
      ∧ [2048; 2048; 2048; 3048; 1048; 2049; 0; 4095; 2047] !! 4%nat = Some b1
      ∧ [2048; 2048; 2048; 3048; 1048; 2049; 0; 4095; 2047] !! 5%nat = Some b2
      ∧ float_of_Z (b0 - 2048) = Ok f0 ∧ float_of_Z (b1 - 2048) = Ok f1
      ∧ float_of_Z (b2 - 2048) = Ok f2
      ∧ 9.81%float = (f0 * slope t (PStr "high") * 9.81)%float
      ∧ (-9.81)%float = (f1 * slope t (PStr "high") * 9.81)%float
      ∧ 0.009810000000000001%float = (f2 * slope t (PStr "high") * 9.81)%float
      ∧ (b0 = 2048 → 9.81%float = 0%float)
      ∧ (b1 = 2048 → (-9.81)%float = 0%float)
      ∧ (b2 = 2048 → 0.009810000000000001%float = 0%float).
Proof.
  split; [by_computation|]. split; [by_computation|].
  apply (axis_values [burst_10hz] (PStr "m/s2") (PStr "high")
           [burst_10hz_decoded] 0 burst_10hz burst_10hz_decoded
           [2048; 2048; 2048; 3048; 1048; 2049; 0; 4095; 2047] 1
           "2020-01-01 00:00:00.100000" (PStr "77"));
    by_computation.
Defined.

(** ** Interpolated timestamps *)

Lemma seconds_of_Ok (event : record) (seconds : float) :
  seconds_of event = Ok seconds ↔
  ∃ freq f, event !! "acceleration_sampling_frequency_per_axis" = Some freq
    ∧ py_float freq = Ok f ∧ (f =? 0)%float = false ∧ seconds = (1 / f)%float.
Proof.
  unfold seconds_of, getitem. split.
  - intros H. apply bind_Ok in H as (freq & H1 & H).
    apply bind_Ok in H as (f & H2 & H).
    destruct (event !! _) as [v|]; [|discriminate]. injection H1 as ->.
    destruct (f =? 0)%float eqn:E; [discriminate|]. injection H as <-.
    exists freq, f. auto.
  - intros (freq & f & H1 & H2 & H3 & ->).
    rewrite H1. simpl. rewrite H2. simpl. rewrite H3. reflexivity.
Qed.

(** A start in the year 999 is read, and the sample is stamped with a
    year of three digits: the stamp is not in the format of the input,
    and [strptime] refuses it. *)
Lemma short_year_counterexample :
  strptime (PStr "0999-01-01 00:00:00.5") = Ok (mk_datetime 999 1 1 0 0 0 500000)
  ∧ transformRawACC [burst_year_999] (PStr "m/s2") (PStr "high")
    = Ok [[("999-01-01 00:00:00.500000", PStr "77", 0, 0, 0)%float]]
  ∧ strptime (PStr "999-01-01 00:00:00.500000") = Raise ValueError.
Proof. repeat split; by_computation. Qed.

(** C4 (amended): a burst of [n] raw values gives [n / 3] samples, and the
    sample at index [i] carries the start time plus [(1 / f) * i] seconds
    (the product taken in binary64 and rounded to whole microseconds by
    [timedelta]), printed by [strftime].  From the year 1000 on the stamp
    is in the format of the input: [strptime] reads it back as that
    time.  Before the year 1000 the year is printed without leading
    zeros, and [strptime] refuses the stamp. *)
Theorem sample_timestamps (accevents : list record) (unit sensitivity : pyval)
    (out : list (list sample)) (k : nat) (event : record)
    (samples : list sample) (stamp freq : pyval) (start : datetime)
    (f : float) (raw : list Z) :
  transformRawACC accevents unit sensitivity = Ok out →
  accevents !! k = Some event →
  out !! k = Some samples →
  event !! "timestamp" = Some stamp →
  strptime stamp = Ok start →
  event !! "acceleration_sampling_frequency_per_axis" = Some freq →
  py_float freq = Ok f →
  raw_of event = Ok raw →
  length samples = (length raw / 3)%nat
  ∧ ∀ i : nat, (i < length raw / 3)%nat →
      ∃ (xf : float) (delta : Z) (t : datetime) (dep : pyval) (x y z : float),
        float_of_Z (Z.of_nat i) = Ok xf
        ∧ timedelta_seconds (1 / f * xf) = Ok delta
        ∧ datetime_add start delta = Ok t
        ∧ samples !! i = Some (strftime t, dep, x, y, z)
        ∧ (1000 <= year t → strptime (PStr (strftime t)) = Ok t)
        ∧ (year t < 1000 → strptime (PStr (strftime t)) = Raise ValueError).
Proof.
  intros H He Ho Hst Hstart Hfreq Hf Hr.
  apply transformRawACC_Ok in H as (first & tag & t & _ & _ & _ & HF).
  pose proof (Forall2_lookup_lr _ _ _ _ _ _ HF He Ho) as Hdec.
  pose proof (decode_event_length _ _ _ _ _ Hdec Hr) as Hlen.
  split; [exact Hlen|].
  intros i Hi.
  destruct (proj1 (decode_event_Ok _ _ _ _) Hdec)
    as (deploym & seconds & parsedts & raw' & ts & H1 & H2 & H3 & H4 & _).
  assert (raw' = raw) as -> by congruence.
  assert (parsedts = start) as ->.
  { unfold parsedts_of, getitem in H3. rewrite Hst in H3. simpl in H3. congruence. }
  assert (seconds = (1 / f)%float) as ->.
  { apply seconds_of_Ok in H2 as (freq' & f' & E1 & E2 & _ & ->). congruence. }
  destruct (lookup_lt_is_Some_2 samples i) as [[[[[st dep] x] y] z] Hs]; [lia|].
  destruct (decode_event_sample _ _ _ _ _ _ _ _ _ _ _ _ _ _ Hdec H1 H2 H3 H4 Hs)
    as (tm & b0 & b1 & b2 & Hint & _ & -> & _).
  unfold interpolate in Hint.
  apply bind_Ok in Hint as (xf & Hxf & Hint).
  apply bind_Ok in Hint as (delta & Hd & Hadd).
  exists xf, delta, tm, dep, x, y, z.
  repeat (split; [assumption|]).
  assert (valid_datetime tm) as Hvalid by (by eapply datetime_add_valid).
  split; intros Hyear.
  - by apply strptime_strftime.
  - by apply strptime_short_year.
Qed.

Lemma sample_timestamps_witness :
  transformRawACC [burst_10hz] (PStr "m/s2") (PStr "high") = Ok [burst_10hz_decoded]
  ∧ strptime (PStr "2020-01-01 00:00:00.000000") = Ok (mk_datetime 2020 1 1 0 0 0 0)
  ∧ py_float (PStr "10") = Ok 10%float
  ∧ length burst_10hz_decoded = 3%nat
  ∧ ∀ i : nat, (i < 3)%nat →
      ∃ (xf : float) (delta : Z) (t : datetime) (dep : pyval) (x y z : float),
        float_of_Z (Z.of_nat i) = Ok xf
        ∧ timedelta_seconds (1 / 10 * xf) = Ok delta
        ∧ datetime_add (mk_datetime 2020 1 1 0 0 0 0) delta = Ok t
        ∧ burst_10hz_decoded !! i = Some (strftime t, dep, x, y, z)
        ∧ (1000 <= year t → strptime (PStr (strftime t)) = Ok t)
        ∧ (year t < 1000 → strptime (PStr (strftime t)) = Raise ValueError).
Proof.
  split; [by_computation|]. split; [by_computation|]. split; [by_computation|].
  apply (sample_timestamps [burst_10hz] (PStr "m/s2") (PStr "high")
           [burst_10hz_decoded] 0 burst_10hz burst_10hz_decoded
           (PStr "2020-01-01 00:00:00.000000") (PStr "10")
           (mk_datetime 2020 1 1 0 0 0 0) 10%float
           [2048; 2048; 2048; 3048; 1048; 2049; 0; 4095; 2047]);
    by_computation.
Defined.

(** Three samples at 10 Hz lie 0, 0.1 and 0.2 seconds after the start. *)
Example burst_10hz_offsets :
  fmap (M := list) (λ s : sample, s.1.1.1.1) burst_10hz_decoded
  = ["2020-01-01 00:00:00.000000"; "2020-01-01 00:00:00.100000";
     "2020-01-01 00:00:00.200000"]
  ∧ (timedelta_seconds (1 / 10 * 0), timedelta_seconds (1 / 10 * 1),
     timedelta_seconds (1 / 10 * 2))
    = (Ok 0, Ok 100000, Ok 200000).
Proof. split; by_computation. Qed.

(** ** Batches *)

(** In a batch whose tags differ in generation, the second burst is decoded
    with the slope of the first tag (0.001), not with its own (1/512). *)
Lemma per_record_slope_counterexample :
  transformRawACC [burst_tag "100"; burst_tag "5000"] (PStr "g") (PStr "high")
  = Ok [[("2020-01-01 00:00:00.000000", PStr "77", 1, 0, -1)%float];
        [("2020-01-01 00:00:00.000000", PStr "77", 1, 0, -1)%float]]
  ∧ (getitem (burst_tag "5000") "tag_local_identifier" ≫= py_int) = Ok 5000
  ∧ decode_event (slope 5000 (PStr "high")) (unitfactor (PStr "g")) (burst_tag "5000")
    = Ok [("2020-01-01 00:00:00.000000", PStr "77", 1.953125, 0, -1.953125)%float].
Proof. repeat split; by_computation. Qed.

(** C5 (amended): a call succeeds exactly when the tag of the first event
    reads as an integer and every event decodes with the slope of that one
    tag; the output then has one list of samples per event, in the order
    of the events. *)
Theorem batch_uses_first_tag (accevents : list record) (unit sensitivity : pyval)
    (out : list (list sample)) :
  transformRawACC accevents unit sensitivity = Ok out ↔
  ∃ (first : record) (tag : pyval) (t : Z),
    accevents !! 0%nat = Some first
    ∧ getitem first "tag_local_identifier" = Ok tag ∧ py_int tag = Ok t
    ∧ length out = length accevents
    ∧ ∀ (k : nat) (event : record), accevents !! k = Some event →
        ∃ samples : list sample,
          out !! k = Some samples
          ∧ decode_event (slope t sensitivity) (unitfactor unit) event = Ok samples.
Proof.
  rewrite transformRawACC_Ok. split.
  - intros (first & tag & t & H0 & H1 & H2 & HF).
    exists first, tag, t. repeat (split; [assumption|]).
    split; [symmetry; by eapply Forall2_length|].
    intros k event Hk.
    destruct (Forall2_lookup_l _ _ _ _ _ HF Hk) as (samples & Hs & Hd). eauto.
  - intros (first & tag & t & H0 & H1 & H2 & Hlen & Hall).
    exists first, tag, t. repeat (split; [assumption|]).
    apply Forall2_same_length_lookup. split; [congruence|].
    intros k event samples Hk Hs.
    destruct (Hall k event Hk) as (samples' & Hs' & Hd). congruence.
Qed.






(** C10: the empty batch raises [IndexError]; the tag of the first event is
    read before any event is decoded, so a first event without a readable
    tag fails the call whatever follows; a call that returns was given at
    least one event. *)
Theorem empty_batch_fails (unit sensitivity : pyval) :
  transformRawACC [] unit sensitivity = Raise IndexError
  ∧ (∀ (first : record) (rest : list record) (e : exn),
       (getitem first "tag_local_identifier" ≫= py_int) = Raise e →
       transformRawACC (first :: rest) unit sensitivity = Raise e)
  ∧ (∀ (accevents : list record) (out : list (list sample)),
       transformRawACC accevents unit sensitivity = Ok out →
       (0 < length accevents)%nat).
Proof.
  split; [reflexivity|]. split.
  - intros first rest e H. unfold transformRawACC.
    destruct (getitem first "tag_local_identifier") as [tag|e']; simpl in *.
    + destruct (py_int tag); simpl in *; congruence.
    + congruence.
  - intros [|first rest] out H; [discriminate|]. simpl. lia.
Qed.

(** ** The digest *)

Lemma hex_char_lowercase (n : Z) :
  0 <= n < 16 → In (MD5.hex_char n) (chars "0123456789abcdef").
Proof.
  intros H. unfold MD5.hex_char. apply nth_In.
  change (length (chars "0123456789abcdef")) with 16%nat. lia.
Qed.

Lemma le_bytes_range (n : nat) (x b : Z) :
  In b (MD5.le_bytes n x) → 0 <= b < 256.
Proof.
  revert x. induction n as [|n IH]; intros x; simpl; [tauto|].
  intros [<- | H]; [|by eapply IH].
  change 255 with (Z.ones 8). rewrite Z.land_ones by lia.
  apply Z.mod_pos_bound. lia.
Qed.

(** The digest is sixteen bytes, printed as 32 lowercase hexadecimal
    digits. *)
Lemma hexdigest_lowercase (msg : list byte) :
  length (chars (MD5.hexdigest msg)) = 32%nat
  ∧ Forall (λ c, In c (chars "0123456789abcdef")) (chars (MD5.hexdigest msg)).
Proof.
  unfold MD5.hexdigest. rewrite chars_unchars.
  assert (length (MD5.digest msg) = 16%nat
          ∧ Forall (λ b, 0 <= b < 256) (MD5.digest msg)) as [Hlen Hall].
  { unfold MD5.digest. destruct (fold_left _ _ _) as [[[a b] c] d].
    split; [reflexivity|].
    apply List.Forall_forall. intros x Hx.
    repeat (apply in_app_or in Hx as [Hx | Hx]; [by eapply le_bytes_range|]).
    by eapply le_bytes_range. }
  split.
  - assert (∀ l : list Z,
              length (flat_map (λ b, [MD5.hex_char (b / 16); MD5.hex_char (b mod 16)]) l)
              = (2 * length l)%nat) as Hpairs.
    { induction l as [|b l IH]; simpl in *; [reflexivity | rewrite IH; lia]. }
    rewrite Hpairs, Hlen. reflexivity.
  - clear Hlen. induction Hall as [|b l Hb _ IH]; cbn [flat_map app].
    + constructor.
    + constructor; [|constructor; [|exact IH]]; apply hex_char_lowercase.
      * split; [apply Z.div_pos; lia | apply Z.div_lt_upper_bound; lia].
      * apply Z.mod_pos_bound. lia.
Qed.

(** ** The license handshake *)

(** The marker has no character that [repr] escapes. *)
Lemma escape_marker (q : ascii) :
  q = quote1 ∨ q = quote2 →
  flat_map (escape q) (ascii_bytes (bytes_of license_marker)) = chars license_marker.
Proof. intros [-> | ->]; reflexivity. Qed.

(** A body that holds the marker is recognised through its [repr]. *)
Lemma marker_found (body pre post : list byte) :
  body = pre ++ bytes_of license_marker ++ post →
  str_contains license_marker (repr_bytes body) = true.
Proof.
  intros ->. unfold str_contains, repr_bytes.
  rewrite chars_unchars. unfold ascii_bytes.
  rewrite !map_app, !flat_map_app.
  fold (ascii_bytes (bytes_of license_marker)).
  rewrite escape_marker.
  - rewrite <- !app_assoc.
    rewrite (app_assoc _ (flat_map _ (map ascii_of_byte pre))).
    apply contains_app.
  - unfold repr_quote. destruct (_ && _); auto.
Qed.

(** X2: the two requests of a handshake: the second carries the parameters
    of the first followed by the digest of the terms, the cookies of the
    first answer, and the credentials found in the environment. *)
Lemma license_handshake_requests (self : MovebankAPI) (ps : params) (w : World)
    (first : Response) (pre post : list byte) (mbus mbpw : string) :
  transport w (sent w ++ [mk_request direct_read ps None (username self, password self)])
  = Ok first →
  status_code first = 200 →
  content first = pre ++ bytes_of license_marker ++ post →
  environ w !! "mbus" = Some mbus →
  environ w !! "mbpw" = Some mbpw →
  sent (callMovebankAPI self ps w).2
  = sent w
    ++ [mk_request direct_read ps None (username self, password self);
        mk_request direct_read
          (ps ++ [("license-md5", PStr (MD5.hexdigest (content first)))])
          (Some (cookies first)) (mbus, mbpw)].
Proof.
  intros Hfirst Hstatus Hbody Hu Hp.
  pose proof (marker_found _ _ _ Hbody) as Hmarker.
  unfold callMovebankAPI, mbind, IO_bind, requests_get, print, environ_get,
    lift, mret, IO_ret.
  cbn [sent environ transport stdout].
  rewrite Hfirst. cbn [sent environ transport stdout].
  rewrite Hstatus. cbn [Z.eqb Pos.eqb].
  rewrite Hmarker. cbn [sent environ transport stdout].
  rewrite Hu, Hp. cbn [sent environ transport stdout].
  rewrite <- app_assoc. cbn [app].
  destruct (transport w (sent w ++ [_; _])) as [second|e]; cbn [sent snd].
  - destruct (status_code second =? 403); reflexivity.
  - reflexivity.
Qed.

Ltac run_call :=
  unfold callMovebankAPI, mbind, IO_bind, requests_get, print, environ_get,
    lift, mret, IO_ret;
  cbn [sent environ transport stdout fst snd].

Ltac split_run :=
  repeat match goal with
         | |- context [match ?x with _ => _ end] =>
             destruct x eqn:?; cbn [sent environ transport stdout fst snd]
         end.

(** C7: a call sends at most two requests, and when it has sent two and
    the second answer has status 403 it returns the empty string. *)
Theorem second_rejection_returns_empty (self : MovebankAPI) (ps : params) (w : World) :
  (∃ reqs : list Request,
     sent (callMovebankAPI self ps w).2 = sent w ++ reqs ∧ (length reqs <= 2)%nat)
  ∧ ∀ (req1 req2 : Request) (second : Response),
      sent (callMovebankAPI self ps w).2 = sent w ++ [req1; req2] →
      transport w (sent w ++ [req1; req2]) = Ok second →
      status_code second = 403 →
      (callMovebankAPI self ps w).1 = Ok "".
Proof.
  split.
  - run_call. split_run.
    all: rewrite <- ?app_assoc; cbn [app].
    all: eexists; split; [reflexivity | simpl; lia].
  - intros req1 req2 second. run_call. split_run.
    all: rewrite <- ?app_assoc; cbn [app].
    all: intros Hsent Hsecond H403.
    all: apply app_inv_head in Hsent.
    all: try discriminate Hsent.
    all: try reflexivity.
    all: injection Hsent as <- <-.
    all: rewrite <- app_assoc in *; cbn [app] in *.
    all: match goal with
         | H : transport _ (_ ++ [_; _]) = Raise _ |- _ =>
             rewrite H in Hsecond; discriminate Hsecond
         | H : transport _ (_ ++ [_; _]) = Ok ?r,
           Hs : (status_code ?r =? 403) = false |- _ =>
             rewrite H in Hsecond; injection Hsecond as ->;
             rewrite H403 in Hs; discriminate Hs
         end.
Qed.

Lemma second_rejection_witness :
  sent (callMovebankAPI alice study_query
          (fresh_world [("mbus", "alice"); ("mbpw", "secret")] refusing_server)).2
  = [] ++ [first_request; second_request "alice" "secret"]
  ∧ refusing_server ([] ++ [first_request; second_request "alice" "secret"])
    = Ok (mk_response 403 (bytes_of "Forbidden") [] direct_read)
  ∧ (callMovebankAPI alice study_query
       (fresh_world [("mbus", "alice"); ("mbpw", "secret")] refusing_server)).1
    = Ok "".
Proof.
  split; [by_computation|]. split; [by_computation|].
  apply (proj2 (second_rejection_returns_empty alice study_query
                  (fresh_world [("mbus", "alice"); ("mbpw", "secret")] refusing_server))
           first_request (second_request "alice" "secret")
           (mk_response 403 (bytes_of "Forbidden") [] direct_read));
    by_computation.
Defined.

(** With the credentials in the environment, the handshake goes through:
    the digest of the terms is accepted and the data returned. *)
Example handshake_accepted :
  MD5.hexdigest terms = "eb617c5b6ed3390332e7e8a2b263e9c4"
  ∧ (callMovebankAPI alice study_query
       (fresh_world [("mbus", "alice"); ("mbpw", "secret")] accepting_server)).1
    = Ok "id,name"
  ∧ sent (callMovebankAPI alice study_query
            (fresh_world [("mbus", "alice"); ("mbpw", "secret")] accepting_server)).2
    = [first_request; second_request "alice" "secret"].
Proof. repeat split; by_computation. Qed.

(** C1 (the code at the failing input): without [mbus] in the environment
    the call raises [KeyError] after the first answer; the digest is never
    sent, only the first request is. *)
Lemma handshake_without_environment :
  accepting_server [first_request] = Ok terms_response
  ∧ (callMovebankAPI alice study_query (fresh_world [] accepting_server)).1
    = Raise (KeyError "mbus")
  ∧ sent (callMovebankAPI alice study_query (fresh_world [] accepting_server)).2
    = [first_request].
Proof. repeat split; by_computation. Qed.

(** C8 (the code at the failing input): the second request carries the
    credentials of the environment, not those of the client. *)
Lemma second_request_credentials :
  req_auth
    <$> sent (callMovebankAPI alice study_query
                (fresh_world [("mbus", "bob"); ("mbpw", "hunter2")] refusing_server)).2
  = [(username alice, password alice); ("bob", "hunter2")].
Proof. by_computation. Qed.

(** ** Location rows *)

Lemma len_positive (s : string) :
  (0 <? Z.of_nat (String.length s)) = negb (String.eqb s "").
Proof.
  destruct s as [|c s]; [reflexivity|].
  cbn [String.length String.eqb negb]. apply Z.ltb_lt. lia.
Qed.

Lemma float_of_chars_error (l : list ascii) (x : exn) :
  float_of_chars l = Raise x → x = ValueError.
Proof. unfold float_of_chars. repeat case_match; congruence. Qed.

Lemma convert_field_value (k : string) (e : record) (v : pyval) :
  e !! k = Some v →
  convert_field k e
  = if conversion_fails v then Raise (match v with PStr _ => ValueError | _ => TypeError end)
    else Ok (<[k := coordinate v]> e).
Proof.
  intros H. unfold convert_field, getitem. rewrite H.
  destruct v as [|s|z|f]; try reflexivity.
  cbn [mbind result_bind py_len conversion_fails coordinate].
  rewrite len_positive.
  destruct (String.eqb s ""); cbn [negb andb].
  - by rewrite insert_id.
  - cbn [py_float].
    destruct (float_of_chars (chars s)) as [g|x] eqn:E; cbn [is_ok negb];
      [reflexivity|].
    apply float_of_chars_error in E as ->. reflexivity.
Qed.

(** A latitude that does not read as a number leaves the longitude as text
    although the longitude reads as one. *)
Lemma gps_longitude_counterexample :
  (transform (gps_row "north" "8.5")).1.1
  = Ok (PStr "2020-01-01 00:00:00.000", PStr "77", PStr "north", PStr "8.5")
  ∧ py_len (PStr "8.5") = Ok 3
  ∧ py_float (PStr "8.5") = Ok 8.5%float
  ∧ (transform (gps_row "47.25" "8.5")).1.1
    = Ok (PStr "2020-01-01 00:00:00.000", PStr "77", PFloat 47.25, PFloat 8.5).
Proof. repeat split; by_computation. Qed.

(** C9 (amended): for a row that holds the four fields, [transform]
    returns the tuple without raising, with the timestamp and the
    deployment id of the row; the latitude is a number when it is a text
    that is not empty and reads as one, and is kept as it is otherwise;
    the longitude likewise, except that it is kept as it is whenever the
    conversion of the latitude fails (a latitude that is a text, not
    empty, that does not read as a number, or that is no text at all). *)
Theorem gps_fix_of_row (e : record) (ts dep lat long : pyval) :
  e !! "timestamp" = Some ts →
  e !! "deployment_id" = Some dep →
  e !! "location_lat" = Some lat →
  e !! "location_long" = Some long →
  (transform e).1.1
  = Ok (ts, dep, coordinate lat,
        if conversion_fails lat then long else coordinate long).
Proof.
  intros Hts Hdep Hlat Hlong. unfold transform.
  rewrite (convert_field_value _ _ _ Hlat).
  destruct (conversion_fails lat) eqn:Elat.
  - assert (coordinate lat = lat) as ->.
    { destruct lat as [|s|z|f]; try reflexivity.
      cbn in *. destruct (String.eqb s ""); [reflexivity|].
      destruct (float_of_chars (chars s)); [discriminate | reflexivity]. }
    cbn [fst]. unfold getitem. by simplify_map_eq.
  - assert (<["location_lat" := coordinate lat]> e !! "location_long" = Some long)
      as Hlong' by (by simplify_map_eq).
    rewrite (convert_field_value _ _ _ Hlong').
    destruct (conversion_fails long) eqn:Elong; cbn [fst]; unfold getitem.
    + assert (coordinate long = long) as ->.
      { destruct long as [|s|z|f]; try reflexivity.
        cbn in *. destruct (String.eqb s ""); [reflexivity|].
        destruct (float_of_chars (chars s)); [discriminate | reflexivity]. }
      by simplify_map_eq.
    + by simplify_map_eq.
Qed.

Lemma gps_fix_of_row_witness :
  (gps_row "" "8.5" !! "timestamp" = Some (PStr "2020-01-01 00:00:00.000")
   ∧ gps_row "" "8.5" !! "deployment_id" = Some (PStr "77")
   ∧ gps_row "" "8.5" !! "location_lat" = Some (PStr "")
   ∧ gps_row "" "8.5" !! "location_long" = Some (PStr "8.5"))
  ∧ (coordinate (PStr "") = PStr "" ∧ conversion_fails (PStr "") = false
     ∧ coordinate (PStr "8.5") = PFloat 8.5)
  ∧ (transform (gps_row "" "8.5")).1.1
    = Ok (PStr "2020-01-01 00:00:00.000", PStr "77", coordinate (PStr ""),
          if conversion_fails (PStr "") then PStr "8.5" else coordinate (PStr "8.5")).
Proof.
  split; [repeat split; by_computation|].
  split; [repeat split; by_computation|].
  apply (gps_fix_of_row (gps_row "" "8.5")); by_computation.
Defined.

Lemma convert_field_keeps (k k' : string) (e e1 : record) :
  convert_field k e = Ok e1 → is_Some (e !! k') → is_Some (e1 !! k').
Proof.
  unfold convert_field. intros H Hk'.
  apply bind_Ok in H as (v & _ & H). apply bind_Ok in H as (n & _ & H).
  destruct (0 <? n); [|congruence].
  apply bind_Ok in H as (v' & _ & H). apply bind_Ok in H as (f & _ & [= <-]).
  destruct (decide (k = k')) as [<- | Hne].
  - rewrite lookup_insert_eq. eauto.
  - by rewrite lookup_insert_ne.
Qed.

(** A row that holds the four fields gives a tuple, whatever the fields
    are. *)
Lemma transform_returns (e : record) :
  is_Some (e !! "timestamp") → is_Some (e !! "deployment_id") →
  is_Some (e !! "location_lat") → is_Some (e !! "location_long") →
  ∃ fix_ : gps_fix, (transform e).1.1 = Ok fix_.
Proof.
  intros Hts Hdep Hlat Hlong.
  assert (∀ e' : record,
            is_Some (e' !! "timestamp") → is_Some (e' !! "deployment_id") →
            is_Some (e' !! "location_lat") → is_Some (e' !! "location_long") →
            ∃ fix_ : gps_fix,
              (ts ← getitem e' "timestamp"; dep ← getitem e' "deployment_id";
               lat ← getitem e' "location_lat"; long ← getitem e' "location_long";
               Ok (ts, dep, lat, long)) = Ok fix_) as Hread.
  { intros e' [ts Ets] [dep Edep] [lat Elat] [long Elong].
    unfold getitem. rewrite Ets, Edep, Elat, Elong. eauto. }
  unfold transform.
  destruct (convert_field "location_lat" e) as [e1|] eqn:E1; [|by apply Hread].
  destruct (convert_field "location_long" e1) as [e2|] eqn:E2; cbn [fst].
  - apply Hread; eauto using convert_field_keeps.
  - apply Hread; eauto using convert_field_keeps.
Qed.

(** X12: a batch of rows that hold the four fields converts row by row, and
    never raises. *)
Lemma transformRawGPS_rows (gpsevents : list record) :
  Forall (λ e, is_Some (e !! "timestamp") ∧ is_Some (e !! "deployment_id")
               ∧ is_Some (e !! "location_lat") ∧ is_Some (e !! "location_long"))
         gpsevents →
  ∃ fixes : list gps_fix,
    (transformRawGPS gpsevents).1.1 = Ok fixes
    ∧ Forall2 (λ e fix_, (transform e).1.1 = Ok fix_) gpsevents fixes.
Proof.
  induction 1 as [|e rest (H1 & H2 & H3 & H4) _ IH].
  - exists []. split; [reflexivity | constructor].
  - destruct IH as (fixes & Hrest & Hall).
    destruct (transform_returns e H1 H2 H3 H4) as (fix_ & He).
    exists (fix_ :: fixes). split; [|by constructor].
    cbn [transformRawGPS].
    destruct (transform e) as [[r e'] out]. cbn [fst] in He. subst r.
    destruct (transformRawGPS rest) as [[rs rest'] out'].
    cbn [fst] in *. subst rs. reflexivity.
Qed.

(** * Further properties *)

(** ** The arguments and the fields the decoder reads *)

(** X15: the unit is only compared with [g] and the sensitivity with [low];
    past the first generation the sensitivity is not looked at. *)
Theorem unit_and_sensitivity_by_name (accevents : list record)
    (unit unit' sensitivity sensitivity' : pyval) :
  eq_str unit "g" = eq_str unit' "g" →
  (eq_str sensitivity "low" = eq_str sensitivity' "low"
   ∨ ∃ (first : record) (tag : pyval) (t : Z),
       accevents !! 0%nat = Some first
       ∧ getitem first "tag_local_identifier" = Ok tag
       ∧ py_int tag = Ok t ∧ 2241 < t) →
  transformRawACC accevents unit sensitivity
  = transformRawACC accevents unit' sensitivity'.
Proof.
  intros Hu Hs. unfold transformRawACC, unitfactor. rewrite Hu.
  destruct accevents as [|first rest]; [reflexivity|].
  destruct (getitem first "tag_local_identifier") as [tag|e] eqn:Etag;
    [|reflexivity].
  cbn [mbind result_bind].
  destruct (py_int tag) as [t|e] eqn:Et; [|reflexivity].
  cbn [mbind result_bind].
  assert (slope t sensitivity = slope t sensitivity') as ->; [|reflexivity].
  unfold slope. destruct Hs as [-> | (first' & tag' & t' & [= <-] & Htag & Ht & Hgt)].
  - reflexivity.
  - assert (t' = t) as -> by congruence.
    assert ((t <=? 2241) = false) as -> by (apply Z.leb_gt; lia).
    reflexivity.
Qed.

Lemma unit_and_sensitivity_by_name_witness :
  (eq_str (PStr "G") "g" = eq_str (PStr "m/s2") "g"
   ∧ eq_str PNone "low" = eq_str (PStr "high") "low")
  ∧ transformRawACC [burst_10hz] (PStr "G") PNone
    = transformRawACC [burst_10hz] (PStr "m/s2") (PStr "high").
Proof.
  split; [split; reflexivity|].
  apply (unit_and_sensitivity_by_name [burst_10hz]); [reflexivity | left; reflexivity].
Defined.

(** X16: every sample carries the deployment id of its own event, as the event
    holds it. *)
Theorem sample_deployment (accevents : list record) (unit sensitivity : pyval)
    (out : list (list sample)) (k : nat) (event : record)
    (samples : list sample) (i : nat) (stamp : string) (dep : pyval)
    (x y z : float) :
  transformRawACC accevents unit sensitivity = Ok out →
  accevents !! k = Some event →
  out !! k = Some samples →
  samples !! i = Some (stamp, dep, x, y, z) →
  event !! "deployment_id" = Some dep.
Proof.
  intros H He Ho Hi.
  apply transformRawACC_Ok in H as (first & tag & t & _ & _ & _ & HF).
  pose proof (Forall2_lookup_lr _ _ _ _ _ _ HF He Ho) as Hdec.
  destruct (proj1 (decode_event_Ok _ _ _ _) Hdec)
    as (deploym & seconds & parsedts & raw & ts & H1 & H2 & H3 & H4 & _).
  destruct (decode_event_sample _ _ _ _ _ _ _ _ _ _ _ _ _ _ Hdec H1 H2 H3 H4 Hi)
    as (tm & b0 & b1 & b2 & _ & _ & _ & -> & _).
  unfold getitem in H1. destruct (event !! "deployment_id"); congruence.
Qed.

Lemma sample_deployment_witness :
  (transformRawACC [burst_10hz] (PStr "m/s2") (PStr "high") = Ok [burst_10hz_decoded]
   ∧ burst_10hz_decoded !! 2%nat
     = Some ("2020-01-01 00:00:00.200000", PStr "77", -20.090880000000002,
             20.081070000000004, -0.009810000000000001)%float)
  ∧ burst_10hz !! "deployment_id" = Some (PStr "77").
Proof.
  split; [split; by_computation|].
  apply (sample_deployment [burst_10hz] (PStr "m/s2") (PStr "high")
           [burst_10hz_decoded] 0 burst_10hz burst_10hz_decoded 2
           "2020-01-01 00:00:00.200000" (PStr "77")
           (-20.090880000000002)%float 20.081070000000004%float
           (-0.009810000000000001)%float);
    by_computation.
Defined.

Lemma mapM_result_ext {A B} (f g : A → result B) (l l' : list A) :
  Forall2 (λ x x', f x = g x') l l' → mapM_result f l = mapM_result g l'.
Proof.
  induction 1 as [|x x' l l' Hx _ IH]; [reflexivity|].
  cbn [mapM_result]. rewrite Hx, IH. reflexivity.
Qed.

(** X17: the decoder reads four fields of each event and the tag of the first
    event, nothing else: batches that agree on those decode alike. *)
Theorem decoder_reads_five_fields (accevents accevents' : list record)
    (unit sensitivity : pyval) :
  Forall2 (λ e e' : record,
             e !! "deployment_id" = e' !! "deployment_id"
             ∧ e !! "acceleration_sampling_frequency_per_axis"
               = e' !! "acceleration_sampling_frequency_per_axis"
             ∧ e !! "timestamp" = e' !! "timestamp"
             ∧ e !! "accelerations_raw" = e' !! "accelerations_raw")
          accevents accevents' →
  (head accevents ≫= (.!! "tag_local_identifier"))
  = (head accevents' ≫= (.!! "tag_local_identifier")) →
  transformRawACC accevents unit sensitivity
  = transformRawACC accevents' unit sensitivity.
Proof.
  intros HF Htag.
  assert (∀ sl uf, mapM_result (decode_event sl uf) accevents
                   = mapM_result (decode_event sl uf) accevents') as Hmap.
  { intros sl uf. apply mapM_result_ext.
    eapply Forall2_impl; [exact HF|].
    intros e e' (Hd & Hf & Ht & Hr).
    unfold decode_event, seconds_of, parsedts_of, raw_of, getitem.
    rewrite Hd, Hf, Ht, Hr. reflexivity. }
  unfold transformRawACC. revert Htag Hmap.
  destruct HF as [|first first' rest rest' _ _]; [reflexivity|].
  cbn [head mbind option_bind]. intros Htag Hmap.
  unfold getitem. rewrite Htag.
  destruct (first' !! "tag_local_identifier") as [tag|]; [|reflexivity].
  cbn [mbind result_bind].
  destruct (py_int tag) as [t|e]; [|reflexivity].
  cbn [mbind result_bind]. apply Hmap.
Qed.

Lemma decoder_reads_five_fields_witness :
  transformRawACC [burst_tag "100"; burst_tag "5000"] (PStr "g") (PStr "high")
  = transformRawACC
      [<["individual_id" := PStr "9"]> (burst_tag "100"); burst_tag "nothing"]
      (PStr "g") (PStr "high").
Proof.
  apply decoder_reads_five_fields.
  - repeat constructor; by_computation.
  - by_computation.
Defined.

(** ** What the conversion of location rows raises *)

Lemma convert_field_same_keys (k k' : string) (e e1 : record) :
  convert_field k e = Ok e1 → e1 !! k' = None ↔ e !! k' = None.
Proof.
  unfold convert_field, getitem. intros H.
  destruct (e !! k) as [v|] eqn:Hk; [|discriminate].
  cbn [mbind result_bind] in H.
  apply bind_Ok in H as (n & _ & H).
  destruct (0 <? n); [|by injection H as <-].
  apply bind_Ok in H as (f & _ & [= <-]).
  destruct (decide (k = k')) as [<- | Hne].
  - rewrite lookup_insert_eq, Hk. split; discriminate.
  - by rewrite lookup_insert_ne.
Qed.

Lemma read_location_raises (e : record) (x : exn) :
  (ts ← getitem e "timestamp"; dep ← getitem e "deployment_id";
   lat ← getitem e "location_lat"; long ← getitem e "location_long";
   Ok (ts, dep, lat, long)) = Raise x →
  ∃ k, k ∈ location_fields ∧ e !! k = None ∧ x = KeyError k.
Proof.
  unfold getitem, location_fields.
  destruct (e !! "timestamp") eqn:H1; cbn [mbind result_bind].
  2: { intros [= <-]. exists "timestamp". repeat split; [set_solver | done]. }
  destruct (e !! "deployment_id") eqn:H2; cbn [mbind result_bind].
  2: { intros [= <-]. exists "deployment_id". repeat split; [set_solver | done]. }
  destruct (e !! "location_lat") eqn:H3; cbn [mbind result_bind].
  2: { intros [= <-]. exists "location_lat". repeat split; [set_solver | done]. }
  destruct (e !! "location_long") eqn:H4; cbn [mbind result_bind].
  2: { intros [= <-]. exists "location_long". repeat split; [set_solver | done]. }
  discriminate.
Qed.

Lemma transform_raises (e : record) (x : exn) :
  (transform e).1.1 = Raise x →
  ∃ k, k ∈ location_fields ∧ e !! k = None ∧ x = KeyError k.
Proof.
  unfold transform.
  destruct (convert_field "location_lat" e) as [e1|] eqn:E1;
    [|by apply read_location_raises].
  destruct (convert_field "location_long" e1) as [e2|] eqn:E2; cbn [fst].
  - intros (k & Hk & Hnone & ->)%read_location_raises.
    exists k. split; [done|]. split; [|done].
    by apply (convert_field_same_keys _ _ _ _ E1), (convert_field_same_keys _ _ _ _ E2).
  - intros (k & Hk & Hnone & ->)%read_location_raises.
    exists k. split; [done|]. split; [|done].
    by apply (convert_field_same_keys _ _ _ _ E1).
Qed.

(** X13: the conversion of a batch raises nothing but [KeyError], and only for
    a row that lacks one of the four columns: a coordinate that cannot be
    converted never makes it fail. *)
Theorem transformRawGPS_raises (gpsevents : list record) (x : exn) :
  (transformRawGPS gpsevents).1.1 = Raise x →
  ∃ (e : record) (k : string),
    e ∈ gpsevents ∧ k ∈ location_fields ∧ e !! k = None ∧ x = KeyError k.
Proof.
  induction gpsevents as [|e rest IH]; [discriminate|].
  cbn [transformRawGPS].
  pose proof (transform_raises e) as He.
  destruct (transform e) as [[[fix_|y] e'] out]; cbn [fst] in *.
  - destruct (transformRawGPS rest) as [[[fixes|y] rest'] out']; cbn [fst] in *;
      [discriminate|].
    intros [= <-]. destruct (IH eq_refl) as (e0 & k & Hin & Hk & Hnone & ->).
    exists e0, k. split; [by right | done].
  - intros [= <-]. destruct (He y eq_refl) as (k & Hk & Hnone & ->).
    exists e, k. split; [by left | done].
Qed.

Lemma transformRawGPS_raises_witness :
  (transformRawGPS [gps_row "47.25" "8.5"; gps_row_without_deployment]).1.1
  = Raise (KeyError "deployment_id")
  ∧ ∃ (e : record) (k : string),
      e ∈ [gps_row "47.25" "8.5"; gps_row_without_deployment]
      ∧ k ∈ location_fields ∧ e !! k = None
      ∧ KeyError "deployment_id" = KeyError k.
Proof.
  split; [by_computation|].
  apply transformRawGPS_raises. by_computation.
Defined.

Lemma transformRawGPS_rows_witness :
  ∃ fixes : list gps_fix,
    (transformRawGPS [gps_row "47.25" "8.5"; gps_row "north" "8.5"]).1.1 = Ok fixes
    ∧ Forall2 (λ e fix_, (transform e).1.1 = Ok fix_)
              [gps_row "47.25" "8.5"; gps_row "north" "8.5"] fixes.
Proof.
  apply transformRawGPS_rows.
  repeat constructor; eexists; by_computation.
Defined.

(** ** Location rows, converted again *)

Lemma coordinate_kept (v : pyval) : conversion_fails v = true → coordinate v = v.
Proof.
  destruct v as [|s|z|f]; try reflexivity.
  cbn. destruct (String.eqb s ""); [reflexivity|].
  destruct (float_of_chars (chars s)); [discriminate | reflexivity].
Qed.



(** What [transform] returns, what it leaves in the row and whether it
    prints the warning, for a row that holds the four fields. *)
Lemma transform_row (e : record) (ts dep lat long : pyval) :
  e !! "timestamp" = Some ts →
  e !! "deployment_id" = Some dep →
  e !! "location_lat" = Some lat →
  e !! "location_long" = Some long →
  let lat' := coordinate lat in
  let long' := if conversion_fails lat then long else coordinate long in
  transform e
  = (Ok (ts, dep, lat', long'),
     <["location_long" := long']> (<["location_lat" := lat']> e),
     if conversion_fails lat || conversion_fails long then [parse_warning] else []).
Proof.
  intros Hts Hdep Hlat Hlong lat' long'. subst lat' long'. unfold transform.
  rewrite (convert_field_value _ _ _ Hlat).
  destruct (conversion_fails lat) eqn:Elat; cbn [orb].
  - rewrite (coordinate_kept _ Elat).
    rewrite (insert_id e "location_lat"), (insert_id e "location_long") by done.
    unfold getitem. by rewrite Hts, Hdep, Hlat, Hlong.
  - assert (<["location_lat" := coordinate lat]> e !! "location_long" = Some long)
      as Hlong' by (by simplify_map_eq).
    rewrite (convert_field_value _ _ _ Hlong').
    destruct (conversion_fails long) eqn:Elong; unfold getitem.
    + rewrite (coordinate_kept _ Elong), (insert_id _ "location_long") by done.
      by simplify_map_eq.
    + by simplify_map_eq.
Qed.




(** ** Studies by sensor *)

(** X9: the studies kept for a sensor name are those that name it among their
    sensor types, in the order given, provided every study has that
    column; keeping them again changes nothing. *)
Theorem getStudiesBySensor_filter (studies kept : list csv_row) (sensorname : string) :
  (getStudiesBySensor studies (PStr sensorname) = Ok kept
   ↔ Forall (λ s, ∃ ids : string, cells s !! "sensor_type_ids" = Some (PStr ids)) studies
     ∧ kept = List.filter (mentions sensorname) studies)
  ∧ (getStudiesBySensor studies (PStr sensorname) = Ok kept →
     getStudiesBySensor kept (PStr sensorname) = Ok kept).
Proof.
  assert (∀ l k, getStudiesBySensor l (PStr sensorname) = Ok k
                 ↔ Forall (λ s, ∃ ids : string,
                              cells s !! "sensor_type_ids" = Some (PStr ids)) l
                   ∧ k = List.filter (mentions sensorname) l) as Hspec.
  { induction l as [|s l IH]; intros k.
    - cbn. split; [intros [= <-]; by split | intros [_ ->]; reflexivity].
    - change (getStudiesBySensor (s :: l) (PStr sensorname))
        with (keep ← (ids ← getitem (cells s) "sensor_type_ids";
                      py_in (PStr sensorname) ids);
              kept ← getStudiesBySensor l (PStr sensorname);
              Ok (if keep : bool then s :: kept else kept)).
      cbn [List.filter]. unfold mentions at 1, getitem.
      split.
      + intros H.
        destruct (cells s !! "sensor_type_ids") as [[|ids|z|f]|] eqn:E;
          try discriminate H.
        cbn [mbind result_bind py_in] in H.
        destruct (getStudiesBySensor l (PStr sensorname)) as [k'|];
          [|discriminate H].
        destruct (proj1 (IH k') eq_refl) as [HF ->]. injection H as <-.
        split; [constructor; eauto | reflexivity].
      + intros [HF ->]. inversion HF as [|? ? [ids Hs] HF']; subst.
        rewrite Hs. cbn [mbind result_bind py_in].
        rewrite (proj2 (IH _) (conj HF' eq_refl)). reflexivity. }
  split; [apply Hspec|].
  intros H. apply Hspec in H as [HF ->]. apply Hspec. split.
  - apply Forall_forall. intros s Hs. apply list_elem_of_In, filter_In in Hs as [Hs _].
    rewrite Forall_forall in HF. apply HF. by apply list_elem_of_In.
  - clear HF. induction studies as [|s l IH]; [reflexivity|].
    cbn [List.filter]. destruct (mentions sensorname s) eqn:E; [|exact IH].
    cbn [List.filter]. rewrite E. by f_equal.
Qed.

(** ** Where the marker is looked for *)

Lemma contains_cons (n : list ascii) (x : ascii) (hay : list ascii) :
  contains n (x :: hay) = starts_with n (x :: hay) || contains n hay.
Proof. reflexivity. Qed.

(** An occurrence cannot start at a character other than the first of the
    needle. *)
Lemma contains_skip (c : ascii) (n t rest : list ascii) :
  forallb (λ x, negb (Ascii.eqb c x)) t = true →
  contains (c :: n) (t ++ rest) = contains (c :: n) rest.
Proof.
  induction t as [|x t IH]; [reflexivity|].
  cbn [forallb]. intros [Hx Ht]%andb_true_iff.
  cbn [app]. rewrite contains_cons, IH by exact Ht.
  cbn [starts_with]. apply negb_true_iff in Hx. by rewrite Hx.
Qed.

(** A byte is printed as it is, or as an escape that starts with a
    backslash and holds no capital L. *)
Lemma escape_shape (q d : ascii) :
  q = quote1 ∨ q = quote2 →
  escape q d = [d]
  ∨ ∃ t, escape q d = backslash :: t
         ∧ forallb (λ x, negb (Ascii.eqb "L" x)) (backslash :: t) = true.
Proof.
  intros Hq. destruct d as [b0 b1 b2 b3 b4 b5 b6 b7].
  destruct b0, b1, b2, b3, b4, b5, b6, b7, Hq as [-> | ->].
  all: vm_compute.
  all: first [left; reflexivity | right; eexists; split; reflexivity].
Qed.

(** A needle without backslash that the escaped text starts with is a
    prefix of the text, or runs over its end. *)
Lemma starts_with_escaped (q : ascii) (n cs tail : list ascii) :
  q = quote1 ∨ q = quote2 →
  Forall (λ c, c ≠ backslash) n →
  starts_with n (flat_map (escape q) cs ++ tail) = true →
  (∃ post, cs = n ++ post)
  ∨ (∃ n1 c n2, n = n1 ++ c :: n2 ∧ starts_with (c :: n2) tail = true).
Proof.
  intros Hq Hn. revert cs. induction Hn as [|c n Hc _ IH]; intros cs H.
  - left. by exists cs.
  - destruct cs as [|d cs].
    + right. by exists [], c, n.
    + cbn [flat_map] in H. rewrite <- app_assoc in H.
      destruct (escape_shape q d Hq) as [E | (t & E & _)]; rewrite E in H;
        cbn [app starts_with] in H; apply andb_true_iff in H as [Hd H].
      * apply Ascii.eqb_eq in Hd as <-.
        destruct (IH _ H) as [[post ->] | (n1 & c' & n2 & -> & Ht)].
        -- left. by exists post.
        -- right. by exists (c :: n1), c', n2.
      * apply Ascii.eqb_eq in Hd. contradiction.
Qed.

Lemma marker_in_escaped (q : ascii) (cs : list ascii) :
  q = quote1 ∨ q = quote2 →
  contains (chars license_marker) (flat_map (escape q) cs ++ [q]) = true →
  ∃ pre post, cs = pre ++ chars license_marker ++ post.
Proof.
  intros Hq.
  assert (Forall (λ c, c ≠ backslash) (chars license_marker)) as Hbs.
  { repeat constructor; discriminate. }
  assert (Forall (λ c, c ≠ q) (chars license_marker)) as Hnq.
  { destruct Hq as [-> | ->]; repeat constructor; discriminate. }
  assert (contains (chars license_marker) [q] = false) as Hend.
  { destruct Hq as [-> | ->]; reflexivity. }
  assert (∃ n, chars license_marker = "L"%char :: n) as [n Hhead] by by eexists.
  induction cs as [|d cs IH]; intros H.
  - cbn [flat_map app] in H. congruence.
  - destruct (escape_shape q d Hq) as [E | (t & E & Ht)].
    + assert (flat_map (escape q) (d :: cs) ++ [q]
              = d :: (flat_map (escape q) cs ++ [q])) as Hd.
      { cbn [flat_map]. by rewrite E. }
      rewrite Hd, contains_cons in H. apply orb_true_iff in H as [H | H].
      * rewrite <- Hd in H.
        destruct (starts_with_escaped q _ _ _ Hq Hbs H)
          as [[post Hpost] | (n1 & c & n2 & Hsplit & Hc)].
        -- exists [], post. exact Hpost.
        -- cbn [starts_with] in Hc. apply andb_true_iff in Hc as [Hc _].
           apply Ascii.eqb_eq in Hc as ->. rewrite Hsplit in Hnq.
           apply Forall_app in Hnq as [_ Hnq]. by inversion Hnq.
      * destruct (IH H) as (pre & post & ->). by exists (d :: pre), post.
    + cbn [flat_map] in H. rewrite E, <- app_assoc, Hhead in H.
      rewrite contains_skip in H by exact Ht. rewrite <- Hhead in H.
      destruct (IH H) as (pre & post & ->). by exists (d :: pre), post.
Qed.

Lemma bytes_ascii_bytes (b : list byte) : map byte_of_ascii (ascii_bytes b) = b.
Proof.
  unfold ascii_bytes. induction b as [|x b IH]; [reflexivity|].
  cbn [map]. by rewrite byte_of_ascii_of_byte, IH.
Qed.

(** X1: the terms are detected in the printed form of the body exactly when
    the body itself holds the marker: printing the body neither hides an
    occurrence nor creates one. *)
Theorem license_marker_detection (body : list byte) :
  str_contains license_marker (repr_bytes body) = true
  ↔ ∃ pre post : list byte, body = pre ++ bytes_of license_marker ++ post.
Proof.
  split; [|intros (pre & post & H); by eapply marker_found].
  unfold str_contains, repr_bytes. rewrite chars_unchars.
  set (q := repr_quote (ascii_bytes body)).
  assert (q = quote1 ∨ q = quote2) as Hq.
  { subst q. unfold repr_quote. destruct (_ && _); auto. }
  intros H.
  change (["b"%char; q] ++ flat_map (escape q) (ascii_bytes body) ++ [q])
    with (["b"%char; q] ++ (flat_map (escape q) (ascii_bytes body) ++ [q])) in H.
  change (chars license_marker) with ("L"%char :: chars "icense Terms:") in H.
  rewrite contains_skip in H by (destruct Hq as [-> | ->]; reflexivity).
  change ("L"%char :: chars "icense Terms:") with (chars license_marker) in H.
  destruct (marker_in_escaped q _ Hq H) as (pre & post & Hbody).
  exists (map byte_of_ascii pre), (map byte_of_ascii post).
  rewrite <- (bytes_ascii_bytes body), Hbody, !map_app. reflexivity.
Qed.

(** ** What a call raises and returns *)

(** X4: a call raises only what the transport raises, [KeyError] for a
    variable missing from the environment, or [UnicodeDecodeError]. *)
Theorem callMovebankAPI_raises (self : MovebankAPI) (ps : params) (w : World)
    (e : exn) :
  (callMovebankAPI self ps w).1 = Raise e →
  e = KeyError "mbus" ∨ e = KeyError "mbpw" ∨ e = UnicodeDecodeError
  ∨ ∃ history : list Request, transport w history = Raise e.
Proof.
  run_call. unfold decode_utf8. split_run.
  all: intros H; try discriminate H; injection H as <-.
  all: repeat match goal with
              | H : match ?x with _ => _ end = Raise _ |- _ =>
                  destruct x; [discriminate H | injection H as <-]
              end.
  all: first [by left | by right; left | by right; right; left
             | do 3 right; eexists; eassumption].
Qed.

Lemma callMovebankAPI_raises_witness :
  (callMovebankAPI alice study_query
     (fresh_world [("mbus", "alice")] accepting_server)).1 = Raise (KeyError "mbpw")
  ∧ (KeyError "mbpw" = KeyError "mbus" ∨ KeyError "mbpw" = KeyError "mbpw"
     ∨ KeyError "mbpw" = UnicodeDecodeError
     ∨ ∃ history : list Request, accepting_server history = Raise (KeyError "mbpw")).
Proof.
  split; [by_computation|].
  apply (callMovebankAPI_raises alice study_query
           (fresh_world [("mbus", "alice")] accepting_server)).
  by_computation.
Defined.

(** X3: the status of the second answer is only compared with 403: any other
    second answer is returned as the data, decoded, whatever its status. *)
Theorem second_answer_returned (self : MovebankAPI) (ps : params) (w : World)
    (first second : Response) (pre post : list byte) (mbus mbpw : string) :
  transport w (sent w ++ [mk_request direct_read ps None (username self, password self)])
  = Ok first →
  status_code first = 200 →
  content first = pre ++ bytes_of license_marker ++ post →
  environ w !! "mbus" = Some mbus →
  environ w !! "mbpw" = Some mbpw →
  transport w
    (sent w
     ++ [mk_request direct_read ps None (username self, password self);
         mk_request direct_read
           (ps ++ [("license-md5", PStr (MD5.hexdigest (content first)))])
           (Some (cookies first)) (mbus, mbpw)])
  = Ok second →
  status_code second ≠ 403 →
  (callMovebankAPI self ps w).1 = decode_utf8 (content second)
  ∧ stdout (callMovebankAPI self ps w).2
    = stdout w ++ ["Request " +:+ url first; "Has license terms"].
Proof.
  intros Hfirst Hstatus Hbody Hu Hp Hsecond H403.
  pose proof (marker_found _ _ _ Hbody) as Hmarker.
  run_call.
  rewrite Hfirst. cbn [sent environ transport stdout fst snd].
  rewrite Hstatus. cbn [Z.eqb Pos.eqb].
  rewrite Hmarker. cbn [sent environ transport stdout fst snd].
  rewrite Hu, Hp. cbn [sent environ transport stdout fst snd].
  rewrite <- app_assoc. cbn [app].
  rewrite Hsecond. cbn [sent environ transport stdout fst snd].
  assert ((status_code second =? 403) = false) as -> by (apply Z.eqb_neq; exact H403).
  cbn [sent environ transport stdout fst snd].
  rewrite <- app_assoc. split; reflexivity.
Qed.

Lemma second_answer_returned_witness :
  (callMovebankAPI alice study_query
     (fresh_world [("mbus", "alice"); ("mbpw", "secret")] failing_server)).1
  = decode_utf8 (bytes_of "Internal Server Error")
  ∧ stdout (callMovebankAPI alice study_query
              (fresh_world [("mbus", "alice"); ("mbpw", "secret")] failing_server)).2
    = [] ++ ["Request " +:+ url terms_response; "Has license terms"].
Proof.
  apply (second_answer_returned alice study_query
           (fresh_world [("mbus", "alice"); ("mbpw", "secret")] failing_server)
           terms_response
           (mk_response 500 (bytes_of "Internal Server Error") [] direct_read)
           [] (bytes_of " the data may be used for research only.")
           "alice" "secret");
    try by_computation.
  discriminate.
Defined.

Lemma license_handshake_requests_witness :
  sent (callMovebankAPI alice study_query
          (fresh_world [("mbus", "bob"); ("mbpw", "hunter2")] accepting_server)).2
  = [] ++ [mk_request direct_read study_query None ("alice", "secret");
           mk_request direct_read
             (study_query ++ [("license-md5", PStr (MD5.hexdigest terms))])
             (Some session) ("bob", "hunter2")].
Proof.
  apply (license_handshake_requests alice study_query
           (fresh_world [("mbus", "bob"); ("mbpw", "hunter2")] accepting_server)
           terms_response
           [] (bytes_of " the data may be used for research only.")
           "bob" "hunter2");
    by_computation.
Defined.

(** ** Answers of one line *)

Lemma length_chars (s : string) : length (chars s) = String.length s.
Proof. induction s as [|c s IH]; simpl; congruence. Qed.

Lemma unchars_chars (s : string) : unchars (chars s) = s.
Proof. induction s as [|c s IH]; simpl; congruence. Qed.

Lemma lines_of_single (l : list ascii) :
  l ≠ [] → Forall (λ c, is_newline c = false) l → lines_of l = [l].
Proof.
  intros Hne H. induction H as [|c l Hc Hl IH]; [done|].
  cbn [lines_of].
  assert (is_lf c = false) as ->.
  { unfold is_newline in Hc. by apply orb_false_iff in Hc as [Hc _]. }
  destruct l as [|d l]; [reflexivity|]. by rewrite IH.
Qed.

(** A line without line break leaves the reader at the start of a record
    or inside a quoted field. *)
Lemma process_line_one (line : list ascii) (p : parser) :
  Forall (λ c, is_newline c = false) line →
  state p ≠ EAT_CRNL →
  Z.of_nat (length (field p) + length line) <= field_limit →
  ∃ p', process_line p line = Returned p'
        ∧ (state p' = START_RECORD ∨ state p' = IN_QUOTED_FIELD).
Proof.
  intros H. revert p. induction H as [|c line Hc _ IH]; intros p Hs Hlen.
  - destruct p as [[] fs f]; cbn; try done; eauto.
  - cbn [process_line].
    assert (∃ p1, process_char p (Some c) = Returned p1 ∧ state p1 ≠ EAT_CRNL
                  ∧ (length (field p1) <= S (length (field p)))%nat)
      as (p1 & -> & Hs1 & Hl1).
    { assert ((field_limit <=? Z.of_nat (length (field p))) = false) as Hadd.
      { apply Z.leb_gt. cbn [length] in Hlen. lia. }
      destruct p as [[] fs f]; cbn [state] in Hs; try done.
      all: unfold process_char, add_char, save_field.
      all: cbn [state fields field] in *; rewrite ?Hc, ?Hadd.
      all: repeat case_match.
      all: eexists; (split; [reflexivity|]); cbn [state field].
      all: rewrite ?length_app; cbn [length]; split; (done || lia). }
    cbn [mbind outcome_bind]. apply IH; [done|]. cbn [length] in Hlen. lia.
Qed.

(** A text of one line is a header without rows. *)
Lemma one_line_no_rows (text : string) :
  text ≠ "" →
  Forall (λ c, is_newline c = false) (chars text) →
  Z.of_nat (String.length text) <= field_limit →
  dict_reader text = ([], None).
Proof.
  intros Hne Hplain Hlen. unfold dict_reader, csv_reader.
  rewrite lines_of_single; [|by destruct text|done].
  destruct (process_line_one (chars text) start_parser Hplain) as (p' & Hp' & Hs).
  { done. }
  { cbn [start_parser field length Nat.add]. by rewrite length_chars. }
  cbn [read_records]. rewrite Hp'.
  destruct Hs as [Hs | Hs]; rewrite Hs.
  - reflexivity.
  - rewrite orb_true_r. reflexivity.
Qed.

Lemma escape_plain (q d : ascii) :
  q = quote1 ∨ q = quote2 →
  forallb (λ c, negb (is_newline c)) (escape q d) = true
  ∧ (length (escape q d) <=? 4)%nat = true.
Proof.
  intros Hq. destruct d as [b0 b1 b2 b3 b4 b5 b6 b7].
  destruct b0, b1, b2, b3, b4, b5, b6, b7, Hq as [-> | ->].
  all: split; reflexivity.
Qed.

(** The printed form of a body is one line, not empty, of at most four
    characters for a byte. *)
Lemma repr_bytes_one_line (b : list byte) :
  repr_bytes b ≠ ""
  ∧ Forall (λ c, is_newline c = false) (chars (repr_bytes b))
  ∧ (String.length (repr_bytes b) <= 4 * length b + 3)%nat.
Proof.
  unfold repr_bytes. set (q := repr_quote (ascii_bytes b)).
  assert (q = quote1 ∨ q = quote2) as Hq.
  { subst q. unfold repr_quote. destruct (_ && _); auto. }
  clearbody q. split; [done|].
  rewrite <- length_chars, chars_unchars.
  assert (Forall (λ c, is_newline c = false) (flat_map (escape q) (ascii_bytes b))
          ∧ (length (flat_map (escape q) (ascii_bytes b)) <= 4 * length b)%nat)
    as [Hplain Hlen].
  { unfold ascii_bytes. induction b as [|x b [IH1 IH2]].
    - split; [constructor | cbn; lia].
    - cbn [map flat_map].
      destruct (escape_plain q (ascii_of_byte x) Hq) as [H1 H2].
      split.
      + apply Forall_app. split; [|exact IH1].
        apply Forall_forall. intros c Hc.
        rewrite forallb_forall in H1. apply negb_true_iff, H1.
        by apply list_elem_of_In.
      + apply Nat.leb_le in H2. rewrite length_app. cbn [length]. lia. }
  split.
  - constructor; [reflexivity|]. constructor.
    + destruct Hq as [-> | ->]; reflexivity.
    + apply Forall_app. split; [exact Hplain|].
      constructor; [|constructor]. destruct Hq as [-> | ->]; reflexivity.
  - cbn [app length]. rewrite length_app. cbn [length]. lia.
Qed.

(** What a call does when the first answer is an error. *)
Lemma call_error (self : MovebankAPI) (ps : params) (w : World) (first : Response) :
  transport w (sent w ++ [mk_request direct_read ps None (username self, password self)])
  = Ok first →
  status_code first ≠ 200 →
  callMovebankAPI self ps w
  = (Ok (repr_bytes (content first)),
     mk_world (environ w) (transport w)
       (sent w ++ [mk_request direct_read ps None (username self, password self)])
       (stdout w ++ ["Request " +:+ url first; repr_bytes (content first)])).
Proof.
  intros Hfirst Hstatus. run_call. rewrite Hfirst.
  cbn [sent environ transport stdout fst snd].
  assert ((status_code first =? 200) = false) as -> by by apply Z.eqb_neq.
  cbn [sent environ transport stdout fst snd]. by rewrite <- app_assoc.
Qed.

Ltac run_listing :=
  unfold getStudies, getIndividualsByStudy, getIndividualEvents,
    mbind, API_bind, call, pure, prints, mret, API_ret.

Lemma nonempty_length (s : string) : s ≠ "" → (0 <? String.length s)%nat = true.
Proof. destruct s; [done | reflexivity]. Qed.

(** ** The listing methods on an error and on a table without rows *)

(** X6: when the server answers every request of the client with the same
    error (a status other than 200, a body under 32 KiB), the listing
    methods return empty lists, not [None], and raise nothing; the body
    is printed. *)
Theorem error_answer_lists_nothing (self : MovebankAPI) (w : World)
    (first : Response) (individual_id sensor_type_id : pyval) :
  (∀ ps : params,
     transport w (sent w ++ [mk_request direct_read ps None (username self, password self)])
     = Ok first) →
  status_code first ≠ 200 →
  Z.of_nat (length (content first)) < 32768 →
  (getStudies self w).1 = Returned (Some [])
  ∧ (getIndividualsByStudy self w).1 = Returned (Some [])
  ∧ (getIndividualEvents self individual_id sensor_type_id false w).1
    = Returned (Rows [])
  ∧ stdout (getStudies self w).2
    = stdout w ++ ["Request " +:+ url first; repr_bytes (content first)].
Proof.
  intros Hfirst Hstatus Hsize.
  destruct (repr_bytes_one_line (content first)) as (Hne & Hplain & Hlen).
  assert (dict_reader (repr_bytes (content first)) = ([], None)) as Hrows.
  { apply one_line_no_rows; [done | done |]. unfold field_limit. lia. }
  pose proof (nonempty_length _ Hne) as Hpos.
  repeat split; run_listing; rewrite (call_error _ _ _ _ (Hfirst _) Hstatus).
  all: cbn [of_result]; rewrite Hpos, Hrows; try reflexivity.
  rewrite !andb_false_r. reflexivity.
Qed.

Lemma error_answer_lists_nothing_witness :
  (getStudies alice (fresh_world [] (constant_server unauthorized))).1
  = Returned (Some [])
  ∧ (getIndividualsByStudy alice (fresh_world [] (constant_server unauthorized))).1
    = Returned (Some [])
  ∧ (getIndividualEvents alice (PInt 7) (PInt 653) false
       (fresh_world [] (constant_server unauthorized))).1
    = Returned (Rows [])
  ∧ stdout (getStudies alice (fresh_world [] (constant_server unauthorized))).2
    = [] ++ ["Request " +:+ url unauthorized; repr_bytes (content unauthorized)].
Proof.
  apply (error_answer_lists_nothing alice
           (fresh_world [] (constant_server unauthorized)) unauthorized).
  - reflexivity.
  - discriminate.
  - by_computation.
Defined.

(** X10: when the answer is one line (the header of a table without rows),
    the events are an empty list, except that the decoding of
    acceleration bursts raises [IndexError]. *)
Theorem events_without_rows (self : MovebankAPI) (w : World) (text : string)
    (individual_id sensor_type_id : pyval) (transform : bool) :
  (callMovebankAPI self (events_query self individual_id sensor_type_id) w).1 = Ok text →
  text ≠ "" →
  Forall (λ c, is_newline c = false) (chars text) →
  Z.of_nat (String.length text) <= field_limit →
  (getIndividualEvents self individual_id sensor_type_id transform w).1
  = if eq_int sensor_type_id 653 && transform then Returned (Fixes [])
    else if eq_int sensor_type_id 2365683 && transform
         then Failed (Builtin IndexError)
         else Returned (Rows []).
Proof.
  intros Hcall Hne Hplain Hlen.
  pose proof (one_line_no_rows text Hne Hplain Hlen) as Hrows.
  pose proof (nonempty_length _ Hne) as Hpos.
  run_listing.
  destruct (callMovebankAPI _ _ w) as [r w']. cbn [fst] in Hcall. subst r.
  cbn [of_result]. rewrite Hpos, Hrows. cbn [list_of].
  destruct (eq_int sensor_type_id 653 && transform); [reflexivity|].
  destruct (eq_int sensor_type_id 2365683 && transform); reflexivity.
Qed.

Lemma events_without_rows_witness :
  (getIndividualEvents alice (PInt 7) (PInt 2365683) true
     (fresh_world [] (constant_server (table "timestamp,accelerations_raw")))).1
  = if eq_int (PInt 2365683) 653 && true then Returned (Fixes [])
    else if eq_int (PInt 2365683) 2365683 && true
         then Failed (Builtin IndexError)
         else Returned (Rows []).
Proof.
  apply (events_without_rows alice
           (fresh_world [] (constant_server (table "timestamp,accelerations_raw")))
           "timestamp,accelerations_raw").
  - by_computation.
  - discriminate.
  - repeat constructor.
  - vm_compute. discriminate.
Defined.

(** X11: the flag [transform] has an effect only when the sensor type is the
    number 653 or 2365683; with any other value, a text such as the
    string 653 among them, the rows are returned as read. *)
Theorem transform_needs_sensor_number (self : MovebankAPI) (w : World)
    (individual_id sensor_type_id : pyval) :
  eq_int sensor_type_id 653 = false →
  eq_int sensor_type_id 2365683 = false →
  getIndividualEvents self individual_id sensor_type_id true w
  = getIndividualEvents self individual_id sensor_type_id false w.
Proof.
  intros H1 H2. run_listing. rewrite H1, H2. reflexivity.
Qed.

Lemma transform_needs_sensor_number_witness :
  getIndividualEvents alice (PInt 7) (PStr "653") true
    (fresh_world [] (constant_server (table studies_table)))
  = getIndividualEvents alice (PInt 7) (PStr "653") false
      (fresh_world [] (constant_server (table studies_table))).
Proof.
  apply transform_needs_sensor_number; reflexivity.
Defined.

(** ** When a listing method returns [None] *)

Lemma decode_empty (b : list byte) : decode_utf8 b = Ok "" ↔ b = [].
Proof.
  split; [|intros ->; reflexivity].
  unfold decode_utf8. destruct (utf8_valid _); [|discriminate].
  destruct b; [reflexivity | discriminate].
Qed.

Lemma call_returns_nothing (self : MovebankAPI) (ps : params) (w : World) :
  (callMovebankAPI self ps w).1 = Ok "" ↔ answers_nothing self ps w.
Proof.
  unfold answers_nothing. split.
  - run_call.
    destruct (transport w (sent w ++ [_])) as [first|] eqn:Hfirst;
      cbn [sent environ transport stdout fst snd]; [|discriminate].
    destruct (status_code first =? 200) eqn:Hstatus;
      cbn [sent environ transport stdout fst snd].
    2: { intros H. exfalso.
         destruct (repr_bytes_one_line (content first)) as [Hne _].
         apply Hne. congruence. }
    apply Z.eqb_eq in Hstatus.
    destruct (str_contains _ _) eqn:Hmarker;
      cbn [sent environ transport stdout fst snd].
    2: { intros H%decode_empty. eauto 6. }
    destruct (environ w !! "mbus") as [mbus|]; cbn [fst snd]; [|discriminate].
    destruct (environ w !! "mbpw") as [mbpw|]; cbn [fst snd]; [|discriminate].
    rewrite <- app_assoc. cbn [app].
    destruct (transport w (sent w ++ [_; _])) as [second|] eqn:Hsecond;
      cbn [sent environ transport stdout fst snd]; [|discriminate].
    destruct (status_code second =? 403) eqn:H403;
      cbn [sent environ transport stdout fst snd].
    + apply Z.eqb_eq in H403. intros _.
      exists first. repeat split; try done. right. split; [done|].
      exists mbus, mbpw, second. eauto.
    + intros H%decode_empty.
      exists first. repeat split; try done. right. split; [done|].
      exists mbus, mbpw, second. eauto.
  - intros (first & Hfirst & Hstatus & Hcases). run_call.
    rewrite Hfirst. cbn [sent environ transport stdout fst snd].
    rewrite Hstatus. cbn [Z.eqb Pos.eqb].
    destruct Hcases as [Hbody | (Hmarker & mbus & mbpw & second & Hu & Hp & Hsecond & Hend)].
    + rewrite Hbody. reflexivity.
    + rewrite Hmarker. cbn [sent environ transport stdout fst snd].
      rewrite Hu, Hp. cbn [sent environ transport stdout fst snd].
      rewrite <- app_assoc. cbn [app]. rewrite Hsecond.
      cbn [sent environ transport stdout fst snd].
      destruct (status_code second =? 403) eqn:H403; [reflexivity|].
      destruct Hend as [Hend | Hend].
      * apply Z.eqb_neq in H403. contradiction.
      * cbn [fst]. by apply decode_empty.
Qed.

(** X5: a listing method returns [None] exactly when the call returns the
    empty text: after an empty body with status 200, or after terms
    whose digest is refused or answered with an empty body. *)
Theorem lists_nothing_when_empty (self : MovebankAPI) (w : World)
    (individual_id sensor_type_id : pyval) (transform : bool) :
  ((getStudies self w).1 = Returned None ↔ answers_nothing self studies_query w)
  ∧ ((getIndividualsByStudy self w).1 = Returned None
     ↔ answers_nothing self
         [("entity_type", PStr "individual"); ("study_id", study_id self)] w)
  ∧ ((getIndividualEvents self individual_id sensor_type_id transform w).1
     = Returned NoEvents
     ↔ answers_nothing self (events_query self individual_id sensor_type_id) w).
Proof.
  split; [|split]; rewrite <- call_returns_nothing; run_listing.
  all: destruct (callMovebankAPI _ _ w) as [[text|e] w']; cbn [fst of_result];
    [|by split].
  all: destruct text as [|c text]; [done|].
  all: rewrite (nonempty_length (String c text)) by done.
  - destruct (dict_reader _) as [rows e].
    destruct (comprehension visible rows e); cbn [fst]; split; intros [=].
  - destruct (list_of _); cbn [fst]; split; intros [=].
  - destruct (list_of _) as [rows|]; cbn [fst]; [|split; intros [=]].
    destruct (_ && _).
    + destruct (transformRawGPS _) as [[[fixes|] rows'] out]; cbn [fst of_result];
        split; intros [=].
    + destruct (_ && _); [|split; intros [=]].
      destruct (transformRawACC _ _ _); cbn [fst of_result]; split; intros [=].
Qed.

(** ** The studies that are shown *)

Lemma eq_str_true (v : pyval) (s : string) : eq_str v s = true → v = PStr s.
Proof. destruct v; try discriminate. cbn. by intros ->%String.eqb_eq. Qed.

Lemma visible_shown (s : csv_row) (keep : bool) :
  visible s = Ok keep → keep = shown s.
Proof.
  unfold visible, shown, getitem.
  destruct (cells s !! "i_can_see_data") as [seen|];
    cbn [mbind result_bind default from_option id]; [|discriminate].
  destruct (eq_str seen "true"); cbn [andb]; [|congruence].
  destruct (cells s !! "there_are_data_which_i_cannot_see") as [hidden|];
    cbn [mbind result_bind default from_option id]; [congruence | discriminate].
Qed.

Lemma comprehension_visible (rows kept : list csv_row) (e : option failure) :
  comprehension visible rows e = Returned kept →
  e = None ∧ kept = List.filter shown rows.
Proof.
  revert kept. induction rows as [|s rows IH]; intros kept.
  - cbn. destruct e; [discriminate|]. by intros [= <-].
  - cbn [comprehension List.filter].
    destruct (visible s) as [keep|] eqn:Hkeep;
      cbn [mbind outcome_bind of_result]; [|discriminate].
    apply visible_shown in Hkeep as <-.
    destruct (comprehension visible rows e) as [kept'|];
      cbn [mbind outcome_bind]; [|discriminate].
    destruct (IH kept' eq_refl) as [-> ->]. by intros [= <-].
Qed.

(** X7: the studies [getStudies] returns are the rows of the answer, in their
    order, whose two visibility columns read [true] and [false]. *)
Theorem getStudies_shown (self : MovebankAPI) (w : World) (studies : list csv_row) :
  (getStudies self w).1 = Returned (Some studies) →
  ∃ (text : string) (rows : list csv_row),
    (callMovebankAPI self studies_query w).1 = Ok text
    ∧ dict_reader text = (rows, None)
    ∧ studies = List.filter shown rows
    ∧ Forall (λ s, cells s !! "i_can_see_data" = Some (PStr "true")
                   ∧ cells s !! "there_are_data_which_i_cannot_see"
                     = Some (PStr "false")) studies.
Proof.
  run_listing.
  destruct (callMovebankAPI _ _ w) as [[text|x] w']; cbn [fst of_result];
    [|discriminate].
  destruct (0 <? String.length text)%nat; [|discriminate].
  destruct (dict_reader text) as [rows e] eqn:Hrows.
  destruct (comprehension visible rows e) as [kept|] eqn:Hkept; cbn [fst];
    [|discriminate].
  intros [= <-]. apply comprehension_visible in Hkept as [-> ->].
  exists text, rows. do 3 (split; [done|]).
  apply Forall_forall. intros s [_ Hs]%list_elem_of_In%filter_In.
  unfold shown in Hs. apply andb_true_iff in Hs as [H1 H2].
  apply eq_str_true in H1, H2.
  destruct (cells s !! "i_can_see_data"); [|discriminate].
  destruct (cells s !! "there_are_data_which_i_cannot_see"); [|discriminate].
  cbn in H1, H2. by subst.
Qed.

Lemma getStudies_shown_witness :
  ∃ (text : string) (rows : list csv_row),
    (callMovebankAPI alice studies_query
       (fresh_world [] (constant_server (table studies_table)))).1 = Ok text
    ∧ dict_reader text = (rows, None)
    ∧ [make_row studies_header ["1"; "Storks"; "true"; "false"; "GPS"]]
      = List.filter shown rows
    ∧ Forall (λ s, cells s !! "i_can_see_data" = Some (PStr "true")
                   ∧ cells s !! "there_are_data_which_i_cannot_see"
                     = Some (PStr "false"))
             [make_row studies_header ["1"; "Storks"; "true"; "false"; "GPS"]].
Proof.
  apply (getStudies_shown alice
           (fresh_world [] (constant_server (table studies_table)))).
  by_computation.
Defined.

(** ** Tables of plain cells *)

Lemma chars_append (a b : string) : chars (a +:+ b) = chars a ++ chars b.
Proof.
  induction a as [|c a IH]; [reflexivity|].
  change (String c a +:+ b) with (String c (a +:+ b)).
  cbn [chars app]. by rewrite IH.
Qed.

Lemma chars_concat (cell : string) (row : list string) :
  chars (String.concat "," (cell :: row))
  = chars cell
    ++ match row with
       | [] => []
       | _ => ","%char :: chars (String.concat "," row)
       end.
Proof.
  destruct row as [|c2 row]; cbn [String.concat].
  - by rewrite app_nil_r.
  - by rewrite !chars_append.
Qed.

Lemma plain_char_true (c : ascii) :
  plain_char c = true →
  is_newline c = false ∧ is_comma c = false ∧ is_quote c = false.
Proof.
  unfold plain_char. intros [[H1 H2]%andb_true_iff H3]%andb_true_iff.
  by apply negb_true_iff in H1, H2, H3.
Qed.

(** The characters of a plain cell go to the field in progress. *)
Lemma feed_cell (cell rest : list ascii) (s : parse_state) (fs : list string)
    (f : list ascii) :
  forallb plain_char cell = true →
  s = START_RECORD ∨ s = START_FIELD ∨ s = IN_FIELD →
  Z.of_nat (length f + length cell) <= field_limit →
  process_line (mk_parser s fs f) (cell ++ rest)
  = process_line (mk_parser (match cell with [] => s | _ => IN_FIELD end) fs (f ++ cell))
      rest.
Proof.
  revert s f. induction cell as [|c cell IH]; intros s f Hplain Hs Hlen.
  - by rewrite app_nil_r.
  - cbn [forallb] in Hplain. apply andb_true_iff in Hplain as [Hc Hplain].
    apply plain_char_true in Hc as (Hnl & Hcomma & Hquote).
    assert ((field_limit <=? Z.of_nat (length f)) = false) as Hadd.
    { apply Z.leb_gt. cbn [length] in Hlen. lia. }
    assert (process_char (mk_parser s fs f) (Some c)
            = Returned (mk_parser IN_FIELD fs (f ++ [c]))) as Hstep.
    { unfold process_char, add_char. cbn [state fields field].
      rewrite Hnl, Hcomma, Hquote, Hadd. by destruct Hs as [-> | [-> | ->]]. }
    cbn [app process_line]. rewrite Hstep. cbn [mbind outcome_bind].
    rewrite IH; [| done | auto |].
    + rewrite <- app_assoc. cbn [app]. by destruct cell.
    + rewrite length_app. cbn [length] in *. lia.
Qed.

Lemma plain_true (cell : string) :
  plain cell = true →
  forallb plain_char (chars cell) = true
  ∧ Z.of_nat (length (chars cell)) <= field_limit.
Proof.
  unfold plain. intros [H1 H2]%andb_true_iff. split; [done|].
  rewrite length_chars. by apply Z.leb_le.
Qed.

(** A line of plain cells is read as the row it was written from. *)
Lemma feed_row (eol : string) (row : list string) (s : parse_state)
    (fs : list string) :
  eol = LF ∨ eol = CR +:+ LF →
  row ≠ [] →
  forallb plain row = true →
  s = START_FIELD ∨ (s = START_RECORD ∧ row ≠ [""]) →
  process_line (mk_parser s fs []) (chars (String.concat "," row) ++ chars eol)
  = Returned (mk_parser START_RECORD (fs ++ row) []).
Proof.
  intros Heol Hne. revert s fs. destruct row as [|cell row]; [done|]. clear Hne.
  revert cell. induction row as [|c2 row IH]; intros cell s fs Hplain Hs.
  - cbn [forallb] in Hplain. apply andb_true_iff in Hplain as [Hcell _].
    apply plain_true in Hcell as [Hcell Hlen].
    cbn [String.concat]. rewrite feed_cell; [| done | tauto | done].
    cbn [app]. destruct (chars cell) as [|c l] eqn:Hchars.
    + assert (cell = "") as -> by (by destruct cell).
      destruct Hs as [-> | [_ Hs]]; [|done].
      destruct Heol as [-> | ->]; reflexivity.
    + rewrite <- (unchars_chars cell), Hchars.
      destruct Heol as [-> | ->]; reflexivity.
  - cbn [forallb] in Hplain. apply andb_true_iff in Hplain as [Hcell Hplain].
    apply plain_true in Hcell as [Hcell Hlen].
    rewrite chars_concat, <- app_assoc. cbn [app].
    rewrite feed_cell; [| done | tauto | done].
    cbn [app process_line].
    assert (∀ s' f, s' = START_RECORD ∨ s' = START_FIELD ∨ s' = IN_FIELD →
                    process_char (mk_parser s' fs f) (Some ","%char)
                    = Returned (mk_parser START_FIELD (fs ++ [unchars f]) []))
      as Hcomma by (by intros s' f [-> | [-> | ->]]).
    rewrite Hcomma by (destruct (chars cell); tauto).
    cbn [mbind outcome_bind]. rewrite unchars_chars.
    rewrite IH by auto. by rewrite <- app_assoc.
Qed.

Lemma lines_of_line (body rest : list ascii) :
  Forall (λ c, is_lf c = false) body →
  lines_of (body ++ "010"%char :: rest) = (body ++ ["010"%char]) :: lines_of rest.
Proof.
  induction 1 as [|c body Hc _ IH]; [reflexivity|].
  cbn [app lines_of]. by rewrite Hc, IH.
Qed.

Lemma concat_no_lf (row : list string) :
  forallb plain row = true →
  Forall (λ c, is_lf c = false) (chars (String.concat "," row)).
Proof.
  induction row as [|cell row IH]; [constructor|].
  cbn [forallb]. intros [Hcell Hrow]%andb_true_iff.
  rewrite chars_concat. apply Forall_app. split.
  - apply plain_true in Hcell as [Hcell _]. rewrite forallb_forall in Hcell.
    apply Forall_forall. intros c Hc%list_elem_of_In%Hcell.
    apply plain_char_true in Hc as [Hc _].
    unfold is_newline in Hc. by apply orb_false_iff in Hc as [Hc _].
  - destruct row; [constructor|]. constructor; [reflexivity | auto].
Qed.

Lemma proper_true (row : list string) :
  proper row = true → row ≠ [] ∧ row ≠ [""] ∧ forallb plain row = true.
Proof.
  unfold proper. intros [[H1 H2]%andb_true_iff H3]%andb_true_iff.
  apply negb_true_iff, bool_decide_eq_false in H1, H2. done.
Qed.

(** The reader gives back the rows a table was written from. *)
Lemma read_table (eol : string) (rows : list (list string)) :
  eol = LF ∨ eol = CR +:+ LF →
  forallb proper rows = true →
  csv_reader (csv_text eol rows) = (rows, None).
Proof.
  intros Heol. unfold csv_reader.
  induction rows as [|row rows IH]; [reflexivity|].
  cbn [forallb]. intros [Hrow Hrows]%andb_true_iff.
  apply proper_true in Hrow as (Hne & Hne' & Hplain).
  cbn [csv_text foldr]. fold (csv_text eol rows).
  unfold csv_line. rewrite !chars_append.
  assert (∃ body, chars (String.concat "," row) ++ chars eol = body ++ ["010"%char]
                  ∧ Forall (λ c, is_lf c = false) body) as (body & Hbody & Hlf).
  { destruct Heol as [-> | ->].
    - exists (chars (String.concat "," row)). split; [reflexivity|].
      by apply concat_no_lf.
    - exists (chars (String.concat "," row) ++ ["013"%char]). split.
      + by rewrite <- app_assoc.
      + apply Forall_app. split; [by apply concat_no_lf | by constructor]. }
  rewrite Hbody, <- app_assoc. cbn [app]. rewrite lines_of_line by done.
  cbn [read_records]. rewrite <- Hbody.
  unfold start_parser at 1. rewrite feed_row; [| done | done | done | auto].
  cbn [state fields app]. rewrite bool_decide_eq_true_2 by done.
  by rewrite (IH Hrows).
Qed.

Lemma lookup_set_none (l : list string) (m : record) (name : string) :
  foldl (λ (m : record) k, <[k := PNone]> m) m l !! name
  = if decide (name ∈ l) then Some PNone else m !! name.
Proof.
  revert m. induction l as [|k l IH]; intros m; cbn [foldl].
  - destruct (decide (name ∈ [])) as [Hin | _]; [|reflexivity].
    by apply elem_of_nil in Hin.
  - rewrite IH.
    destruct (decide (name ∈ l)) as [Hin | Hout];
      destruct (decide (name ∈ k :: l)) as [Hin' | Hout'].
    + reflexivity.
    + exfalso. apply Hout'. by right.
    + apply elem_of_cons in Hin' as [-> | Hin']; [|contradiction].
      by rewrite lookup_insert_eq.
    + rewrite lookup_insert_ne; [reflexivity|].
      intros ->. apply Hout'. by left.
Qed.

Lemma lookup_set_cells (names row : list string) (m : record) (name : string) :
  NoDup names →
  foldl (λ (m : record) '(k, v), <[k := PStr v]> m) m (zip names row) !! name
  = match list_find (λ k, k = name) (take (length row) names) with
    | Some (j, _) => PStr <$> row !! j
    | None => m !! name
    end.
Proof.
  intros Hnd. revert row m.
  induction Hnd as [|k names Hk Hnd IH]; intros row m.
  - by rewrite take_nil.
  - destruct row as [|cell row]; [reflexivity|].
    cbn [zip zip_with foldl length take list_find]. rewrite IH.
    destruct (decide (k = name)) as [-> | Hne].
    + cbn [fmap option_fmap option_map]. 
      destruct (list_find _ (take (length row) names)) as [[j x]|] eqn:Hfind.
      * apply list_find_Some in Hfind as (Hx & Hname & _). subst x.
        apply lookup_take_Some in Hx as [Hx _].
        apply list_elem_of_lookup_2 in Hx. contradiction.
      * cbn. by rewrite lookup_insert_eq.
    + destruct (list_find _ (take (length row) names)) as [[j x]|]; cbn.
      * reflexivity.
      * by rewrite lookup_insert_ne.
Qed.

(** The cells of a row by column name, for distinct names: the cell of
    that column, [None] when the row is too short; the cells beyond the
    columns are kept apart. *)
Lemma make_row_lookup (header row : list string) (j : nat) (name : string) :
  NoDup header →
  header !! j = Some name →
  cells (make_row header row) !! name = Some (from_option PStr PNone (row !! j)).
Proof.
  intros Hnd Hj.
  assert (list_find (λ k, k = name) (take (length row) header)
          = if decide (j < length row)%nat then Some (j, name) else None) as Hfind.
  { destruct (decide (j < length row)%nat) as [Hlt | Hge].
    - apply list_find_Some. split; [by rewrite lookup_take_lt|]. split; [done|].
      intros i y [Hy _]%lookup_take_Some Hij ->.
      pose proof (NoDup_lookup _ _ _ _ Hnd Hy Hj). lia.
    - apply list_find_None, Forall_forall. intros y Hy ->.
      apply list_elem_of_lookup in Hy as (i & [Hy Hi]%lookup_take_Some).
      pose proof (NoDup_lookup _ _ _ _ Hnd Hy Hj). lia. }
  unfold make_row.
  destruct (length header <? length row)%nat eqn:Hlen; cbn [cells].
  - apply Nat.ltb_lt in Hlen. apply lookup_lt_Some in Hj as Hjlt.
    rewrite lookup_set_cells, Hfind by done.
    destruct (decide (j < length row)%nat); [|lia].
    destruct (row !! j) eqn:Hrow; [done|].
    apply lookup_ge_None in Hrow. lia.
  - apply Nat.ltb_ge in Hlen. rewrite lookup_set_none.
    destruct (decide (j < length row)%nat) as [Hlt | Hge].
    + destruct (decide (name ∈ drop (length row) header)) as [Hin | _].
      * apply list_elem_of_lookup in Hin as (i & Hi). rewrite lookup_drop in Hi.
        pose proof (NoDup_lookup _ _ _ _ Hnd Hi Hj). lia.
      * rewrite lookup_set_cells, Hfind by done.
        destruct (row !! j) eqn:Hrow; [done|].
        apply lookup_ge_None in Hrow. lia.
    + destruct (decide (name ∈ drop (length row) header)) as [_ | Hout].
      * by rewrite (proj2 (lookup_ge_None row j)) by lia.
      * exfalso. apply Hout, list_elem_of_lookup. exists (j - length row)%nat.
        rewrite lookup_drop. rewrite <- Hj. f_equal. lia.
Qed.

Lemma text_not_empty (eol : string) (row : list string) (rows : list (list string)) :
  eol = LF ∨ eol = CR +:+ LF →
  (0 <? String.length (csv_text eol (row :: rows)))%nat = true.
Proof.
  intros Heol. apply nonempty_length. intros H.
  apply (f_equal chars) in H. cbn [csv_text foldr] in H.
  unfold csv_line in H. rewrite !chars_append in H.
  destruct (chars (String.concat "," row)); destruct Heol as [-> | ->]; discriminate.
Qed.

Lemma dict_reader_table (eol : string) (header : list string)
    (rows : list (list string)) :
  eol = LF ∨ eol = CR +:+ LF →
  forallb proper (header :: rows) = true →
  dict_reader (csv_text eol (header :: rows)) = (make_row header <$> rows, None).
Proof.
  intros Heol Hproper. unfold dict_reader. rewrite read_table by done.
  assert (List.filter (λ r, negb (bool_decide (r = []))) rows = rows) as ->;
    [|reflexivity].
  cbn [forallb] in Hproper. apply andb_true_iff in Hproper as [_ Hrows].
  induction rows as [|row rows IH]; [reflexivity|].
  cbn [forallb] in Hrows. apply andb_true_iff in Hrows as [Hrow Hrows].
  apply proper_true in Hrow as (Hne & _).
  cbn [List.filter]. rewrite bool_decide_eq_false_2 by done.
  cbn [negb]. by rewrite IH.
Qed.

(** X8: when the answer is a table of plain cells under distinct column
    names, [getIndividualsByStudy] returns one row for each line after
    the header, in their order; a row maps each column name to the cell
    of that column, or to [None] when the line is too short, and keeps
    the cells beyond the last column apart. *)
Theorem individuals_of_table (self : MovebankAPI) (w : World) (eol : string)
    (header : list string) (rows : list (list string)) :
  eol = LF ∨ eol = CR +:+ LF →
  (callMovebankAPI self
     [("entity_type", PStr "individual"); ("study_id", study_id self)] w).1
  = Ok (csv_text eol (header :: rows)) →
  NoDup header →
  forallb proper (header :: rows) = true →
  ∃ out : list csv_row,
    (getIndividualsByStudy self w).1 = Returned (Some out)
    ∧ Forall2 (λ row r,
                 (∀ j name, header !! j = Some name →
                            cells r !! name
                            = Some (from_option PStr PNone (row !! j)))
                 ∧ rest_cells r
                   = if (length header <? length row)%nat
                     then Some (drop (length header) row) else None)
              rows out.
Proof.
  intros Heol Hcall Hnd Hproper.
  exists (make_row header <$> rows). split.
  - run_listing.
    destruct (callMovebankAPI _ _ w) as [r w']. cbn [fst] in Hcall. subst r.
    cbn [of_result]. rewrite text_not_empty by done.
    by rewrite dict_reader_table.
  - apply Forall2_fmap_r, Forall_Forall2_diag, Forall_forall.
    intros row _. split.
    + intros j name Hj. by apply make_row_lookup.
    + unfold make_row, compose. by destruct (_ <? _)%nat.
Qed.

Lemma individuals_of_table_witness :
  ∃ out : list csv_row,
    (getIndividualsByStudy alice
       (fresh_world [] (constant_server (table (csv_text LF individuals_table))))).1
    = Returned (Some out)
    ∧ Forall2 (λ row r,
                 (∀ j name,
                    ["id"; "local_identifier"; "sex"; "comments"] !! j = Some name →
                    cells r !! name = Some (from_option PStr PNone (row !! j)))
                 ∧ rest_cells r
                   = if (length ["id"; "local_identifier"; "sex"; "comments"]
                         <? length row)%nat
                     then Some (drop
                                  (length ["id"; "local_identifier"; "sex"; "comments"])
                                  row)
                     else None)
              [["11"; "Anna"; "f"; ""]; ["12"; "Bert"];
               ["13"; ""; "m"; "ringed 2019"; "extra"]]
              out.
Proof.
  apply (individuals_of_table alice
           (fresh_world [] (constant_server (table (csv_text LF individuals_table))))
           LF).
  - by left.
  - by_computation.
  - apply (bool_decide_unpack _). by_computation.
  - by_computation.
Defined.

(** ** Locations, from the answer to the tuples *)

(** X18: when the answer is a table of plain cells whose distinct column
    names include the four of a location, the events of the GPS sensor
    are returned transformed, one tuple for each line and in their order,
    and nothing is raised: the timestamp and the deployment are the cells
    of the line, the coordinates are numbers where they read as numbers. *)
Theorem locations_of_table (self : MovebankAPI) (w : World) (eol : string)
    (header : list string) (rows : list (list string)) (individual_id : pyval)
    (ts dep lat long : nat) :
  eol = LF ∨ eol = CR +:+ LF →
  (callMovebankAPI self (events_query self individual_id (PInt 653)) w).1
  = Ok (csv_text eol (header :: rows)) →
  NoDup header →
  forallb proper (header :: rows) = true →
  header !! ts = Some "timestamp" →
  header !! dep = Some "deployment_id" →
  header !! lat = Some "location_lat" →
  header !! long = Some "location_long" →
  (getIndividualEvents self individual_id (PInt 653) true w).1
  = Returned
      (Fixes ((λ row, (cell_value row ts, cell_value row dep,
                       coordinate (cell_value row lat),
                       if conversion_fails (cell_value row lat)
                       then cell_value row long
                       else coordinate (cell_value row long))) <$> rows)).
Proof.
  intros Heol Hcall Hnd Hproper Hts Hdep Hlat Hlong.
  run_listing.
  destruct (callMovebankAPI _ _ w) as [r w']. cbn [fst] in Hcall. subst r.
  cbn [of_result]. rewrite text_not_empty by done.
  rewrite dict_reader_table by done. cbn [list_of eq_int Z.eqb Pos.eqb andb].
  assert ((transformRawGPS (cells <$> (make_row header <$> rows))).1.1
          = Ok ((λ row, (cell_value row ts, cell_value row dep,
                         coordinate (cell_value row lat),
                         if conversion_fails (cell_value row lat)
                         then cell_value row long
                         else coordinate (cell_value row long))) <$> rows)) as Hfixes.
  { clear Hproper. induction rows as [|row rows IH]; [reflexivity|].
    cbn [fmap list_fmap transformRawGPS].
    rewrite (transform_row (cells (make_row header row))
               (cell_value row ts) (cell_value row dep)
               (cell_value row lat) (cell_value row long))
      by (by apply make_row_lookup).
    cbn zeta. change (list_fmap ?A ?B ?f ?l) with (f <$> l) in *.
    destruct (transformRawGPS (cells <$> (make_row header <$> rows)))
      as [[fixes rest'] out'].
    cbn [fst] in *. by rewrite IH. }
  destruct (transformRawGPS _) as [[fixes rows'] out].
  cbn [fst] in Hfixes. subst fixes. reflexivity.
Qed.

Lemma locations_of_table_witness :
  (getIndividualEvents alice (PInt 7) (PInt 653) true
     (fresh_world [] (constant_server (table (csv_text (CR +:+ LF) locations_table))))).1
  = Returned
      (Fixes ((λ row, (cell_value row 0, cell_value row 3,
                       coordinate (cell_value row 1),
                       if conversion_fails (cell_value row 1)
                       then cell_value row 2
                       else coordinate (cell_value row 2)))
              <$> [["2020-01-01 00:00:00.000"; "47.25"; "8.5"; "77"; "true"];
                   ["2020-01-01 00:05:00.000"; "north"; "8.5"; "77"; "true"];
                   ["2020-01-01 00:10:00.000"; ""; ""; "77"];
                   ["2020-01-01 00:15:00.000"]])).
Proof.
  apply (locations_of_table alice
           (fresh_world [] (constant_server (table (csv_text (CR +:+ LF) locations_table))))
           (CR +:+ LF)
           ["timestamp"; "location_lat"; "location_long"; "deployment_id"; "visible"]).
  - by right.
  - by_computation.
  - apply (bool_decide_unpack _). by_computation.
  - by_computation.
  - reflexivity.
  - reflexivity.
  - reflexivity.
  - reflexivity.
Defined.
